(** * PCOS Care Assistant: the image classification page

    A shallow embedding of [src/Image_classification_app.py]: the Pillow
    image transform of [preprocess_image], the TFLite call sequence of
    [predict_pcos_tflite], the cached [load_tflite_model] and the Streamlit
    script [main], followed by the properties of the specification.

    Numbers are modelled as the code has them: pixel samples are bytes, NumPy
    scalars are IEEE 754 values of [SpecFloat] in the binary32 or binary64
    format, Python integers are [Z]. Exceptions are values of a sum type,
    threaded with the page and the process state through a small monad.

    What belongs to the libraries is a parameter: Pillow's decoder, its
    conversion to luminance of the modes other than RGB and its resampling
    filter; the model file behind the TFLite interpreter, whose checks and
    forward pass are fields of the interpreter object. The page configuration
    and the style sheet set at module level (lines 8-67) render nothing the
    properties speak of and are left out. *)

From Stdlib Require Import ZArith List String Ascii Bool Lia QArith.
From Stdlib Require Import Strings.Byte DecimalString.
From Stdlib Require Import Floats.SpecFloat.
Import ListNotations.

Local Open Scope string_scope.
Local Open Scope list_scope.
Local Open Scope nat_scope.

(** ** IEEE 754 scalars *)

Inductive format := binary32 | binary64.

Module IEEE.

Definition prec (f : format) : Z :=
  match f with binary32 => 24 | binary64 => 53 end.

Definition emax (f : format) : Z :=
  match f with binary32 => 128 | binary64 => 1024 end.

Definition valid (f : format) (x : spec_float) : bool :=
  valid_binary (prec f) (emax f) x.

(** An integer rounded into the format (exact for the integers used here). *)
Definition of_Z (f : format) (z : Z) : spec_float :=
  binary_normalize (prec f) (emax f) z 0 false.

(** Conversion between formats, rounding to nearest even. *)
Definition convert (f : format) (x : spec_float) : spec_float :=
  match x with
  | S754_finite s m e =>
      binary_normalize (prec f) (emax f) (cond_Zopp s (Zpos m)) e s
  | _ => x
  end.

Definition sub (f : format) := SFsub (prec f) (emax f).
Definition mul (f : format) := SFmul (prec f) (emax f).
Definition div (f : format) := SFdiv (prec f) (emax f).

(** The Python literal [0.5] in either format: 2^(prec-1) * 2^(-prec). *)
Definition half (f : format) : spec_float :=
  match f with
  | binary32 => S754_finite false 8388608 (-24)
  | binary64 => S754_finite false 4503599627370496 (-53)
  end.

Definition zero : spec_float := S754_zero false.
Definition one (f : format) : spec_float := of_Z f 1.

(** The rational a finite value denotes; [None] for infinities and NaN. *)
Definition to_Q (x : spec_float) : option Q :=
  match x with
  | S754_zero _ => Some (0 # 1)%Q
  | S754_finite s m e =>
      Some match e with
           | Z0 => (cond_Zopp s (Zpos m) # 1)%Q
           | Zpos k => (cond_Zopp s (Zpos m) * Zpos (2 ^ k) # 1)%Q
           | Zneg k => (cond_Zopp s (Zpos m) # 2 ^ k)%Q
           end
  | _ => None
  end.

End IEEE.

(** ** NumPy arrays

    Row-major data with a shape; the constructor carries the dtype. Only the
    three dtypes the program meets are modelled. *)

Inductive dtype := uint8 | float32 | float64.

Inductive ndarray :=
| ArrU8 (shape : list nat) (data : list byte)
| ArrF (f : format) (shape : list nat) (data : list spec_float).

Definition dtype_of_format (f : format) : dtype :=
  match f with binary32 => float32 | binary64 => float64 end.

Definition dtype_of (a : ndarray) : dtype :=
  match a with
  | ArrU8 _ _ => uint8
  | ArrF f _ _ => dtype_of_format f
  end.

Definition shape_of (a : ndarray) : list nat :=
  match a with ArrU8 s _ | ArrF _ s _ => s end.

Definition size_of (a : ndarray) : nat :=
  match a with ArrU8 _ d => List.length d | ArrF _ _ d => List.length d end.

(** The elements read as IEEE values (an unsigned byte is exact in both
    formats). *)
Definition float_of_byte (f : format) (b : byte) : spec_float :=
  IEEE.of_Z f (Z.of_N (Byte.to_N b)).

Definition elements (a : ndarray) : list spec_float :=
  match a with
  | ArrU8 _ d => map (float_of_byte binary64) d
  | ArrF _ _ d => d
  end.

(** [np.expand_dims(a, axis=0)] *)
Definition expand_dims0 (a : ndarray) : ndarray :=
  match a with
  | ArrU8 s d => ArrU8 (1 :: s) d
  | ArrF f s d => ArrF f (1 :: s) d
  end.

(** [a / c] for a Python float [c] (given in binary64): an integer array is
    promoted to float64, a float array keeps its dtype. *)
Definition true_divide (a : ndarray) (c : spec_float) : ndarray :=
  match a with
  | ArrU8 s d =>
      ArrF binary64 s (map (fun b => IEEE.div binary64 (float_of_byte binary64 b) c) d)
  | ArrF f s d =>
      ArrF f s (map (fun x => IEEE.div f x (IEEE.convert f c)) d)
  end.

(** [a.astype(np.float32)] *)
Definition astype_float32 (a : ndarray) : ndarray :=
  match a with
  | ArrU8 s d => ArrF binary32 s (map (float_of_byte binary32) d)
  | ArrF _ s d => ArrF binary32 s (map (IEEE.convert binary32) d)
  end.

(** [a[0]]: the first sub-array along axis 0; a 0-d array stands for a NumPy
    scalar. [None] is Python's IndexError. *)
Definition product (s : list nat) : nat := fold_right Nat.mul 1 s.

Definition getitem0 (a : ndarray) : option ndarray :=
  match a with
  | ArrU8 (S _ :: s) d => Some (ArrU8 s (firstn (product s) d))
  | ArrF f (S _ :: s) d => Some (ArrF f s (firstn (product s) d))
  | _ => None
  end.

(** ** Pillow images

    [pixels] holds the rows; a pixel is the list of its band samples. *)

Record Image := mkImage {
  mode : string;
  size : nat * nat;             (* (width, height) *)
  palette : list byte;
  pixels : list (list (list byte))
}.

Definition bands (m : string) : nat :=
  if existsb (String.eqb m) ["1"; "L"; "P"; "I"; "F"] then 1
  else if existsb (String.eqb m) ["LA"; "PA"] then 2
  else if existsb (String.eqb m) ["RGB"; "YCbCr"; "LAB"; "HSV"] then 3
  else 4.

(** A C [UINT8] store: the value modulo 256. *)
Definition u8 (n : N) : byte :=
  match Byte.of_N (n mod 256) with Some b => b | None => x00 end.

(** Pillow's [rgb2l]: ITU-R 601-2 luma with 16-bit fixed-point weights,
    [(R*19595 + G*38470 + B*7471 + 0x8000) >> 16]. *)
Definition rgb2l (px : list byte) : byte :=
  match px with
  | r :: g :: b :: _ =>
      u8 (N.shiftr (Byte.to_N r * 19595 + Byte.to_N g * 38470
                    + Byte.to_N b * 7471 + 32768) 16)
  | _ => x00
  end.

Fixpoint map3 {A B C D} (f : A -> B -> C -> D)
         (xs : list A) (ys : list B) (zs : list C) : list D :=
  match xs, ys, zs with
  | x :: xs', y :: ys', z :: zs' => f x y z :: map3 f xs' ys' zs'
  | _, _, _ => []
  end.

(** [Image.merge(mode, (r, g, b))] of three single-band images. *)
Definition merge (m : string) (rgb : Image * Image * Image) : Image :=
  let '(r, g, b) := rgb in
  {| mode := m; size := size r; palette := [];
     pixels := map3 (map3 (fun pr pg pb => [hd x00 pr; hd x00 pg; hd x00 pb]))
                    (pixels r) (pixels g) (pixels b) |}.

(** One band as a plane of samples. *)
Definition plane (k : nat) (image : Image) : list (list byte) :=
  map (map (fun px => nth k px x00)) (pixels image).

(** Pillow's NEAREST filter: the source sample under the centre of the
    target pixel. *)
Definition NEAREST (src : list (list byte)) (ssize dsize : nat * nat)
           (x y : nat) : byte :=
  let at_centre (t s d : nat) : nat :=
    N.to_nat ((2 * N.of_nat t + 1) * N.of_nat s / (2 * N.of_nat d)) in
  let sx := at_centre x (fst ssize) (fst dsize) in
  let sy := at_centre y (snd ssize) (snd dsize) in
  nth sx (nth sy src []) x00.

(** Conversion of modes other than RGB, reading the first band. *)
Definition first_band (m : string) (pal : list byte) (px : list byte) : byte :=
  hd x00 px.

Section Pillow.

(** Pillow's conversion of one pixel to luminance for the modes other than
    RGB (it may consult the palette), and its resampling filter: the sample
    of the target pixel [(x, y)] computed from one source plane. Both are
    the library's; every result below holds for any choice. *)
Variable luma_other : string -> list byte -> list byte -> byte.
Variable resample : list (list byte) -> nat * nat -> nat * nat -> nat -> nat -> byte.

Definition luma (image : Image) (px : list byte) : byte :=
  if String.eqb (mode image) "RGB" then rgb2l px
  else luma_other (mode image) (palette image) px.

(** [image.convert('L')] *)
Definition convert_L (image : Image) : Image :=
  {| mode := "L"; size := size image; palette := [];
     pixels := map (map (fun px => [luma image px])) (pixels image) |}.

(** [image.resize(target_size)]: a new image of the requested size, each
    band resampled on its own. *)
Definition resize (image : Image) (target_size : nat * nat) : Image :=
  let planes := map (fun k => plane k image) (seq 0 (bands (mode image))) in
  {| mode := mode image; size := target_size; palette := palette image;
     pixels :=
       map (fun y =>
              map (fun x =>
                     map (fun p => resample p (size image) target_size x y) planes)
                  (seq 0 (fst target_size)))
           (seq 0 (snd target_size)) |}.

(** [np.array(image)]: (height, width) for a single band, otherwise
    (height, width, bands); dtype uint8. *)
Definition np_array (image : Image) : ndarray :=
  let '(w, h) := size image in
  if Nat.eqb (bands (mode image)) 1
  then ArrU8 [h; w] (List.concat (map (map (fun px => hd x00 px)) (pixels image)))
  else ArrU8 [h; w; bands (mode image)] (List.concat (List.concat (pixels image))).

(** [preprocess_image(image, target_size=(224, 224))] *)
Definition preprocess_image (image : Image) : ndarray :=
  let target_size := (224, 224) in
  let image :=
    if negb (String.eqb (mode image) "L")
    then let image := convert_L image in
         merge "RGB" (image, image, image)
    else image in
  let image := resize image target_size in
  let img_array := np_array image in
  let img_array := expand_dims0 img_array in
  let img_array := true_divide img_array (IEEE.of_Z binary64 255) in
  img_array.

End Pillow.

(** ** Python values and exceptions *)

Inductive exn := Exception (msg : string).

Definition str (e : exn) : string := let 'Exception msg := e in msg.

Definition res (A : Type) : Type := (exn + A)%type.

(** Truth value of [None] or a string. *)
Definition truthy (s : option string) : bool :=
  match s with
  | None => false
  | Some s => negb (String.eqb s "")
  end.

(** [sub in s] *)
Fixpoint contains (sub s : string) : bool :=
  String.prefix sub s
  || match s with
     | EmptyString => false
     | String _ s' => contains sub s'
     end.

(** ** Scalars read from an array *)

(** [a > 0.5], element by element. NumPy converts both operands exactly to a
    common float type, so the outcome is the IEEE comparison with one half in
    the element's own format; a byte exceeds 0.5 when it is not zero. *)
Definition greater_half (a : ndarray) : list bool :=
  match a with
  | ArrU8 _ d => map (fun b => N.ltb 0 (Byte.to_N b)) d
  | ArrF f _ d => map (fun x => SFltb (IEEE.half f) x) d
  end.

(** Truth value of a boolean array: defined for exactly one element. *)
Definition truth (bs : list bool) : res bool :=
  match bs with
  | [b] => inr b
  | _ => inl (Exception "ValueError: The truth value of an array with more than one element is ambiguous.")
  end.

(** The float type of [x - 0.5] for [x] read from [a]. A float32 scalar
    stays float32 under NumPy 2 promotion ([nep50 = true]) and becomes
    float64 under the older value-based rules; inside an array of one or more
    dimensions float32 is kept by both. *)
Definition arith_format (nep50 : bool) (a : ndarray) : format :=
  match a with
  | ArrU8 _ _ => binary64
  | ArrF binary64 _ _ => binary64
  | ArrF binary32 [] _ => if nep50 then binary32 else binary64
  | ArrF binary32 (_ :: _) _ => binary32
  end.

(** [abs(x - 0.5) * 2] in format [f]. *)
Definition confidence (f : format) (x : spec_float) : spec_float :=
  IEEE.mul f (SFabs (IEEE.sub f (IEEE.convert f x) (IEEE.half f))) (IEEE.of_Z f 2).

(** Decimal digits of a natural number. *)
Definition digits (n : N) : string := NilZero.string_of_uint (N.to_uint n).

(** The exact value [m * 2^e * 10^2] rounded to an integer, ties to even. *)
Definition round_hundredths (m : positive) (e : Z) : N :=
  match e with
  | Zneg k =>
      let num := (Npos m * 100)%N in
      let den := Npos (2 ^ k) in
      let q := (num / den)%N in
      let r := (num mod den)%N in
      match (2 * r ?= den)%N with
      | Lt => q
      | Gt => (q + 1)%N
      | Eq => if N.even q then q else (q + 1)%N
      end
  | Z0 => (Npos m * 100)%N
  | Zpos k => (Npos m * Npos (2 ^ k) * 100)%N
  end.

Definition fixed2 (n : N) : string :=
  let frac := (n mod 100)%N in
  digits (n / 100) ++ "." ++ (if (frac <? 10)%N then "0" else "") ++ digits frac.

(** [format(x, '.2%')] for a Python float: the double is first multiplied by
    100 (a binary64 product), then printed with two decimals, correctly
    rounded from its exact value. *)
Definition format_percent2 (x : spec_float) : string :=
  match IEEE.mul binary64 x (IEEE.of_Z binary64 100) with
  | S754_nan => "nan%"
  | S754_infinity s => (if s then "-" else "") ++ "inf%"
  | S754_zero s => (if s then "-" else "") ++ "0.00%"
  | S754_finite s m e => (if s then "-" else "") ++ fixed2 (round_hundredths m e) ++ "%"
  end.

(** [f"{abs(probability - 0.5) * 2:.2%}"]: a NumPy scalar is formatted as the
    Python float of the same value; an array rejects the format string. *)
Definition format_confidence (nep50 : bool) (probability : ndarray) : res string :=
  match shape_of probability, elements probability with
  | [], [x] =>
      let f := arith_format nep50 probability in
      inr (format_percent2 (IEEE.convert binary64 (confidence f x)))
  | _, _ => inl (Exception "TypeError: unsupported format string passed to numpy.ndarray.__format__")
  end.

(** ** The TFLite interpreter

    The object keeps its tensors by index. What the runtime decides is a field
    of the object: whether allocation fails, whether a tensor is accepted for
    an index, and the forward pass over the tensor store. *)

Record TensorDetails := mkDetails {
  index : Z;
  detail_shape : list nat;
  detail_dtype : dtype
}.

Record Interpreter := mkInterpreter {
  input_details : list TensorDetails;
  output_details : list TensorDetails;
  tensors : list (Z * ndarray);
  allocate_error : option exn;
  bind_error : Z -> ndarray -> option exn;
  forward : list (Z * ndarray) -> res (list (Z * ndarray))
}.

Definition with_tensors (i : Interpreter) (t : list (Z * ndarray)) : Interpreter :=
  {| input_details := input_details i; output_details := output_details i;
     tensors := t; allocate_error := allocate_error i;
     bind_error := bind_error i; forward := forward i |}.

Fixpoint lookup (k : Z) (t : list (Z * ndarray)) : option ndarray :=
  match t with
  | [] => None
  | (k', a) :: t' => if Z.eqb k k' then Some a else lookup k t'
  end.

(** ** The page, the process state and the script monad *)

Record UploadedFile := mkUpload {
  file_size : Z;               (* the [size] attribute, in bytes *)
  file_bytes : list byte
}.

(** The markup and the elements of the page. The HTML of a [st.markdown]
    call is named by what it shows; the long notices of the sidebar are
    elements without their text. *)
Inductive markup :=
| big_title
| image_container_open
| image_container_close
| result_card (result_color result confidence : string)
| placeholder.

Inductive element :=
| sidebar_title (body : string)
| sidebar_write (body : string)
| sidebar_file_uploader (label : string)
| sidebar_button (label : string)
| sidebar_warning
| sidebar_markdown (body : string)
| sidebar_info
| st_markdown (body : markup)
| st_error (body : string)
| st_write (body : string)
| st_columns (spec : list nat)
| st_image (image : Image) (caption : string)
| st_spinner (text : string).

(** [page] is what the current run has rendered; [calls] logs the functions
    the run has entered; [heap] holds the interpreter objects, a handle being
    an index into it; [cache] is the memo of [st.cache_resource]: the cached
    return value with the elements to replay. All but [page] and [calls]
    outlive a run. *)
Record World := mkWorld {
  page : list element;
  calls : list string;
  heap : list Interpreter;
  cache : option (list element * option nat)
}.

Definition M (A : Type) : Type := World -> res A * World.

Definition ret {A} (x : A) : M A := fun w => (inr x, w).

Definition raise {A} (e : exn) : M A := fun w => (inl e, w).

Definition bind {A B} (m : M A) (k : A -> M B) : M B :=
  fun w =>
    match m w with
    | (inl e, w') => (inl e, w')
    | (inr x, w') => k x w'
    end.

(** [try: m except Exception as e: h e] *)
Definition try_except {A} (m : M A) (h : exn -> M A) : M A :=
  fun w =>
    match m w with
    | (inl e, w') => h e w'
    | (inr x, w') => (inr x, w')
    end.

Definition lift {A} (r : res A) : M A := fun w => (r, w).

Declare Scope script_scope.
Delimit Scope script_scope with script.
Notation "x <- m ;; k" := (bind m (fun x => k))
  (at level 100, m at next level, right associativity) : script_scope.
Notation "m ;; k" := (bind m (fun _ => k))
  (at level 100, right associativity) : script_scope.
Notation "' p <- m ;; k" := (bind m (fun x => let 'p := x in k))
  (at level 100, p pattern, m at next level, right associativity) : script_scope.

Definition push (e : element) (w : World) : World :=
  {| page := page w ++ [e]; calls := calls w; heap := heap w; cache := cache w |}.

Definition log (f : string) (w : World) : World :=
  {| page := page w; calls := calls w ++ [f]; heap := heap w; cache := cache w |}.

(** An element is rendered; a function is entered. *)
Definition emit (e : element) : M unit := fun w => (inr tt, push e w).

Definition enter (f : string) : M unit := fun w => (inr tt, log f w).

Fixpoint replay (es : list element) : M unit :=
  match es with
  | [] => ret tt
  | e :: es' => bind (emit e) (fun _ => replay es')
  end.

Fixpoint update {A} (n : nat) (x : A) (l : list A) : list A :=
  match l, n with
  | [], _ => []
  | _ :: l', O => x :: l'
  | y :: l', S n' => y :: update n' x l'
  end.

(** A method call on the object behind a handle. *)
Definition method {A} (h : nat) (op : Interpreter -> res (Interpreter * A)) : M A :=
  fun w =>
    match nth_error (heap w) h with
    | None => (inl (Exception "AttributeError"), w)
    | Some i =>
        match op i with
        | inl e => (inl e, w)
        | inr (i', x) =>
            (inr x, {| page := page w; calls := calls w;
                       heap := update h i' (heap w); cache := cache w |})
        end
    end.

Definition allocate_tensors (h : nat) : M unit :=
  method h (fun i => match allocate_error i with
                     | Some e => inl e
                     | None => inr (i, tt)
                     end).

Definition get_input_details (h : nat) : M (list TensorDetails) :=
  method h (fun i => inr (i, input_details i)).

Definition get_output_details (h : nat) : M (list TensorDetails) :=
  method h (fun i => inr (i, output_details i)).

Definition set_tensor (h : nat) (idx : Z) (value : ndarray) : M unit :=
  method h (fun i => match bind_error i idx value with
                     | Some e => inl e
                     | None => inr (with_tensors i ((idx, value) :: tensors i), tt)
                     end).

Definition invoke (h : nat) : M unit :=
  method h (fun i => match forward i (tensors i) with
                     | inl e => inl e
                     | inr t => inr (with_tensors i t, tt)
                     end).

Definition get_tensor (h : nat) (idx : Z) : M ndarray :=
  method h (fun i => match lookup idx (tensors i) with
                     | Some a => inr (i, a)
                     | None => inl (Exception "ValueError: Invalid tensor index")
                     end).

(** [l[0]] on a Python list and [a[0]] on an array. *)
Definition first {A} (l : list A) : M A :=
  match l with
  | x :: _ => ret x
  | [] => raise (Exception "IndexError: list index out of range")
  end.

Definition item0 (a : ndarray) : M ndarray :=
  match getitem0 a with
  | Some x => ret x
  | None => raise (Exception "IndexError: invalid index")
  end.

(** ** The application *)

Section App.

(** The surroundings of the script: Pillow's pixel conversion and
    resampling filter, Pillow's decoder [Image.open], what the TFLite
    runtime builds from the model file at a path, and the NumPy scalar
    promotion in force. *)
Variable luma_other : string -> list byte -> list byte -> byte.
Variable resample : list (list byte) -> nat * nat -> nat * nat -> nat -> nat -> byte.
Variable decode : UploadedFile -> res Image.
Variable model_file : string -> res Interpreter.
Variable nep50 : bool.

Local Open Scope script_scope.

(** [Interpreter(model_path=path)]: a new object on the heap. *)
Definition Interpreter_new (path : string) : M nat :=
  fun w =>
    match model_file path with
    | inl e => (inl e, w)
    | inr i =>
        (inr (List.length (heap w)),
         {| page := page w; calls := calls w;
            heap := heap w ++ [i]; cache := cache w |})
    end.

(** [Image.open(uploaded_file)] *)
Definition Image_open (uploaded_file : UploadedFile) : M Image :=
  enter "Image.open";;
  lift (decode uploaded_file).

(** [@st.cache_resource]: the body runs on the first call only; its return
    value and the elements it rendered are stored and replayed later. *)
Definition cache_resource (body : M (option nat)) : M (option nat) :=
  fun w =>
    match cache w with
    | Some (rendered, value) => (replay rendered;; ret value) w
    | None =>
        let '(r, w') := body {| page := []; calls := calls w;
                                heap := heap w; cache := None |} in
        (r, {| page := page w ++ page w'; calls := calls w'; heap := heap w';
               cache := match r with
                        | inr value => Some (page w', value)
                        | inl _ => None
                        end |})
    end.

Definition load_tflite_model : M (option nat) :=
  cache_resource
    (try_except
       (interpreter <- Interpreter_new "pcos_detection_model.tflite";;
        allocate_tensors interpreter;;
        ret (Some interpreter))
       (fun e =>
          emit (st_error ("Error loading TFLite model: " ++ str e));;
          ret None)).

Definition predict_pcos_tflite (interpreter : nat) (image_array : ndarray)
  : M (option string * option ndarray) :=
  enter "predict_pcos_tflite";;
  try_except
    (input_details <- get_input_details interpreter;;
     output_details <- get_output_details interpreter;;
     input0 <- first input_details;;
     set_tensor interpreter (index input0) (astype_float32 image_array);;
     invoke interpreter;;
     output0 <- first output_details;;
     prediction <- get_tensor interpreter (index output0);;
     row <- item0 prediction;;
     probability <- item0 row;;
     above <- lift (truth (greater_half probability));;
     let result := if above : bool then "PCOS Negative" else "PCOS Positive" in
     ret (Some result, Some probability))
    (fun e =>
       emit (st_error ("Error during prediction: " ++ str e));;
       ret (None, None)).

(** Lines 193-204 of [main], [if result:] with its body. A truthy [result]
    is a string; were [probability] [None] there, the subtraction would
    raise a TypeError. *)
Definition render_result (result : option string) (probability : option ndarray)
  : M unit :=
  if truthy result
  then
    match result with
    | Some label =>
        emit (st_columns [1; 2; 1]);;
        let result_color := if contains "Positive" label then "red" else "green" in
        match probability with
        | Some p =>
            text <- lift (format_confidence nep50 p);;
            emit (st_markdown (result_card result_color label text))
        | None =>
            raise (Exception "TypeError: unsupported operand type(s) for -: 'NoneType' and 'float'")
        end
    | None => ret tt
    end
  else ret tt.

Definition main (uploaded_file : option UploadedFile) (check_button : bool)
  : M unit :=
  emit (sidebar_title "Upload Image 🖼️");;
  emit (sidebar_write "Upload an ultrasound image to check for PCOS");;
  emit (sidebar_file_uploader "Choose an ultrasound image...");;
  emit (sidebar_button "Check for PCOS");;
  emit sidebar_warning;;
  emit (sidebar_markdown "---");;
  emit sidebar_info;;
  emit (st_markdown big_title);;
  interpreter <- load_tflite_model;;
  match interpreter with
  | None =>
      emit (st_error "Failed to load TFLite model. Please check if the model file exists.")
  | Some interpreter =>
      match uploaded_file with
      | Some uploaded_file =>
          if (file_size uploaded_file >? 10 * 1024 * 1024)%Z
          then emit (st_error "File size exceeds 10MB limit. Please upload a smaller file.")
          else
            try_except
              (image <- Image_open uploaded_file;;
               emit (st_columns [1; 2; 1]);;
               emit (st_markdown image_container_open);;
               emit (st_image image "Uploaded Image");;
               emit (st_markdown image_container_close);;
               if check_button
               then
                 emit (st_spinner "Analyzing image...");;
                 enter "preprocess_image";;
                 let processed_image := preprocess_image luma_other resample image in
                 '(result, probability) <- predict_pcos_tflite interpreter processed_image;;
                 render_result result probability
               else ret tt)
              (fun e =>
                 emit (st_error ("Error processing image: " ++ str e));;
                 emit (st_write "Please ensure you've uploaded a valid image file."))
      | None =>
          emit (st_columns [1; 2; 1]);;
          emit (st_markdown placeholder)
      end
  end.

(** One interaction: Streamlit runs the script again on a fresh page; the
    heap and the cache carry over. *)
Definition rerun (w : World) (uploaded_file : option UploadedFile)
           (check_button : bool) : World :=
  snd (main uploaded_file check_button
            {| page := []; calls := []; heap := heap w; cache := cache w |}).

(** The worlds after each of a sequence of interactions. *)
Fixpoint session (w : World) (inputs : list (option UploadedFile * bool))
  : list World :=
  match inputs with
  | [] => []
  | (uploaded_file, check_button) :: rest =>
      let w' := rerun w uploaded_file check_button in
      w' :: session w' rest
  end.

End App.

(** A process that has just started. *)
Definition boot : World :=
  {| page := []; calls := []; heap := []; cache := None |}.

(** ** Concrete surroundings used to run the script *)

(** A 2x2 greyscale image and the RGB image with the same luminance in all
    three channels. *)
Definition gray2 : Image :=
  {| mode := "L"; size := (2, 2); palette := [];
     pixels := [[[x10]; [x20]]; [[x30]; [xff]]] |}.

(** The RGB image with the luminance of a greyscale image in all three
    channels. *)
Definition as_rgb (g : Image) : Image :=
  {| mode := "RGB"; size := size g; palette := [];
     pixels := map (map (fun px => let v := hd x00 px in [v; v; v])) (pixels g) |}.

(** A 300x300 RGB image of one colour. *)
Definition rgb300 : Image :=
  {| mode := "RGB"; size := (300, 300); palette := [];
     pixels := repeat (repeat [x40; x80; xc0] 300) 300 |}.

Definition upload (n : Z) : UploadedFile :=
  {| file_size := n; file_bytes := [] |}.

Definition decodes_to (image : Image) : UploadedFile -> res Image :=
  fun _ => inr image.

Fixpoint list_nat_eqb (a b : list nat) : bool :=
  match a, b with
  | [], [] => true
  | x :: a', y :: b' => Nat.eqb x y && list_nat_eqb a' b'
  | _, _ => false
  end.

(** A classifier with one float32 input of shape (1,224,224,3) at index 0 and
    one float32 output of shape (1,1) at index 1, whose forward pass yields
    the probability [p]. Like the TFLite runtime it refuses a tensor of
    another dtype or shape. *)
Definition classifier (p : spec_float) : Interpreter :=
  {| input_details := [mkDetails 0 [1; 224; 224; 3] float32];
     output_details := [mkDetails 1 [1; 1] float32];
     tensors := [];
     allocate_error := None;
     bind_error := fun idx value =>
       match dtype_of value with
       | float32 =>
           if list_nat_eqb (shape_of value) [1; 224; 224; 3] then None
           else Some (Exception "ValueError: Cannot set tensor: Dimension mismatch.")
       | _ => Some (Exception "ValueError: Cannot set tensor: Got value of another type but expected type FLOAT32")
       end;
     forward := fun t => inr ((1%Z, ArrF binary32 [1; 1] [p]) :: t) |}.

(** A classifier whose forward pass fails. *)
Definition broken_classifier : Interpreter :=
  {| input_details := [mkDetails 0 [1; 224; 224; 3] float32];
     output_details := [mkDetails 1 [1; 1] float32];
     tensors := [];
     allocate_error := None;
     bind_error := fun _ _ => None;
     forward := fun _ => inl (Exception "RuntimeError: failed to invoke") |}.

Definition model_present (i : Interpreter) : string -> res Interpreter :=
  fun _ => inr i.

Definition model_missing : string -> res Interpreter :=
  fun path => inl (Exception ("ValueError: Could not open '" ++ path ++ "'.")).

(** The binary32 value nearest to 0.2, and 0.75, 1.0 in binary32. *)
Definition p02 : spec_float := S754_finite false 13421773 (-26).
Definition p075 : spec_float := S754_finite false 12582912 (-24).
Definition p1 : spec_float := S754_finite false 8388608 (-23).

(** A NumPy scalar of a float type, as a 0-d array. *)
Definition scalar (f : format) (x : spec_float) : ndarray := ArrF f [] [x].

(** ** Vocabulary of the properties *)

(** The model is loaded: the cache holds handle [h], nothing to replay, and
    [h] is the interpreter [i]. *)
Definition ready (w : World) (h : nat) (i : Interpreter) : Prop :=
  cache w = Some ([], Some h) /\ nth_error (heap w) h = Some i.

(** A world in which [i] has been loaded. *)
Definition warm (i : Interpreter) : World :=
  {| page := []; calls := []; heap := [i]; cache := Some ([], Some 0) |}.

(** Bound to the tensor [a], the forward pass of [i] succeeds and leaves
    [prediction] in the output slot. *)
Definition answers (i : Interpreter) (a prediction : ndarray) : Prop :=
  exists input0 inputs output0 outputs t,
    input_details i = input0 :: inputs /\
    output_details i = output0 :: outputs /\
    bind_error i (index input0) a = None /\
    forward i ((index input0, a) :: tensors i) = inr t /\
    lookup (index output0) t = Some prediction.

(** Binding the tensor [a] or running the forward pass raises [e]. *)
Definition fails_on (i : Interpreter) (a : ndarray) (e : exn) : Prop :=
  exists input0 inputs,
    input_details i = input0 :: inputs /\
    (bind_error i (index input0) a = Some e \/
     (bind_error i (index input0) a = None /\
      forward i ((index input0, a) :: tensors i) = inl e)).

(** Loading the model fails, now or when it was first tried. *)
Definition load_fails (model_file : string -> res Interpreter) (w : World) : Prop :=
  match cache w with
  | Some (_, value) => value = None
  | None =>
      match model_file "pcos_detection_model.tflite" with
      | inl _ => True
      | inr i => allocate_error i <> None
      end
  end.

(** The closed unit interval, by IEEE comparison in binary64. *)
Definition in_unit_interval (x : spec_float) : Prop :=
  SFleb IEEE.zero x = true /\ SFleb x (IEEE.one binary64) = true.

(** The elements every run renders first. *)
Definition static_elements : list element :=
  [sidebar_title "Upload Image 🖼️";
   sidebar_write "Upload an ultrasound image to check for PCOS";
   sidebar_file_uploader "Choose an ultrasound image...";
   sidebar_button "Check for PCOS";
   sidebar_warning;
   sidebar_markdown "---";
   sidebar_info;
   st_markdown big_title].

Definition size_error : element :=
  st_error "File size exceeds 10MB limit. Please upload a smaller file.".

Definition load_error : element :=
  st_error "Failed to load TFLite model. Please check if the model file exists.".

(** The label the decision rule gives a probability of float type [f]. *)
Definition label_of (f : format) (p : spec_float) : string :=
  if SFltb (IEEE.half f) p then "PCOS Negative" else "PCOS Positive".

(** What the branch for the other modes hands to [resize] when given the RGB
    equivalent of [g]. *)
Definition replicated (luma_other : string -> list byte -> list byte -> byte)
           (g : Image) : Image :=
  let c := convert_L luma_other (as_rgb g) in merge "RGB" (c, c, c).

(** The world a run starts from, and the world once the static elements are
    rendered. *)
Definition fresh (w : World) : World :=
  {| page := []; calls := []; heap := heap w; cache := cache w |}.

Definition started (w : World) : World :=
  {| page := static_elements; calls := []; heap := heap w; cache := cache w |}.

(** What is rendered for a decoded image once the button is pressed. *)
Definition analysed (image : Image) : list element :=
  [st_columns [1; 2; 1]; st_markdown image_container_open;
   st_image image "Uploaded Image"; st_markdown image_container_close;
   st_spinner "Analyzing image..."].

(** [w'] extends [w]: the page grew by elements satisfying [P], the call log
    grew. *)
Definition grows (P : element -> Prop) (w w' : World) : Prop :=
  (exists new, page w' = page w ++ new /\ Forall P new)
  /\ (exists new, calls w' = calls w ++ new).

Definition renders {A} (P : element -> Prop) (m : M A) : Prop :=
  forall w, grows P w (snd (m w)).

(** What [preprocess_image] hands to [resize] for an image of a mode other
    than L: the luminance, in three channels. *)
Definition gray_rgb (luma_other : string -> list byte -> list byte -> byte)
           (image : Image) : Image :=
  let c := convert_L luma_other image in merge "RGB" (c, c, c).

(** A decoder that rejects every upload. *)
Definition undecodable : UploadedFile -> res Image :=
  fun _ => inl (Exception "cannot identify image file").

(** Two states of one interpreter object: the same details, checks and
    forward pass; the tensors may differ. *)
Definition same_model (i i' : Interpreter) : Prop :=
  input_details i' = input_details i
  /\ output_details i' = output_details i
  /\ allocate_error i' = allocate_error i
  /\ bind_error i' = bind_error i
  /\ forward i' = forward i.

(** [w'] keeps what outlives a run in [w]: the cache, the number of
    interpreter objects, and behind every handle the same model. *)
Definition preserved (w w' : World) : Prop :=
  cache w' = cache w
  /\ List.length (heap w') = List.length (heap w)
  /\ forall h i, nth_error (heap w) h = Some i ->
                 exists i', nth_error (heap w') h = Some i' /\ same_model i i'.

Definition keeps {A} (m : M A) : Prop := forall w, preserved w (snd (m w)).

(** The model [i] has been loaded, once: the cache holds the handle 0 and
    the heap holds that one object. *)
Definition loaded_once (i : Interpreter) (w : World) : Prop :=
  cache w = Some ([], Some 0)
  /\ List.length (heap w) = 1
  /\ exists i', nth_error (heap w) 0 = Some i' /\ same_model i i'.

(** A computation that leaves the page as it is, whether it returns or
    raises, and whose results satisfy [Q]. *)
Definition quiet {A} (Q : A -> Prop) (m : M A) : Prop :=
  forall w, page (snd (m w)) = page w
            /\ match fst (m w) with inl _ => True | inr y => Q y end.

(** One of the two labels, with a probability. *)
Definition labelled (r : option string * option ndarray) : Prop :=
  exists label probability,
    r = (Some label, Some probability)
    /\ (label = "PCOS Negative" \/ label = "PCOS Positive").

(** An interpreter whose model declares no tensors. *)
Definition blank_model : Interpreter :=
  {| input_details := []; output_details := []; tensors := [];
     allocate_error := None; bind_error := fun _ _ => None;
     forward := fun t => inr t |}.

(** * Properties *)

(** ** IEEE comparison against one half *)

Section Half.

Local Open Scope Z_scope.

Lemma digits2_pos_bounds (m : positive) :
  2 ^ (Zpos (digits2_pos m) - 1) <= Zpos m < 2 ^ Zpos (digits2_pos m).
Proof.
  induction m as [p IH | p IH | ]; cbn [digits2_pos].
  - rewrite Pos2Z.inj_succ. replace (Z.succ (Zpos (digits2_pos p)) - 1)
      with (Z.succ (Zpos (digits2_pos p) - 1)) by lia.
    rewrite !Z.pow_succ_r by lia. lia.
  - rewrite Pos2Z.inj_succ. replace (Z.succ (Zpos (digits2_pos p)) - 1)
      with (Z.succ (Zpos (digits2_pos p) - 1)) by lia.
    rewrite !Z.pow_succ_r by lia. lia.
  - cbn. lia.
Qed.

(** A canonical mantissa has at most [prec] digits, and exactly [prec]
    above the subnormal range. *)
Lemma canonical_bounds (f : format) (m : positive) (e : Z) :
  canonical_mantissa (IEEE.prec f) (IEEE.emax f) m e = true ->
  Zpos m < 2 ^ IEEE.prec f
  /\ (emin (IEEE.prec f) (IEEE.emax f) < e -> 2 ^ (IEEE.prec f - 1) <= Zpos m).
Proof.
  unfold canonical_mantissa, fexp. intros H.
  apply Z.eqb_eq in H.
  pose proof (digits2_pos_bounds m) as [Hlo Hhi].
  set (d := Zpos (digits2_pos m)) in *.
  assert (Hd : d <= IEEE.prec f) by lia.
  split.
  - apply Z.lt_le_trans with (2 ^ d); [exact Hhi | ].
    apply Z.pow_le_mono_r; lia.
  - intros He. assert (d = IEEE.prec f) as Hdp by lia.
    rewrite Hdp in Hlo. exact Hlo.
Qed.

Lemma pow2_pos (k : positive) : Zpos (2 ^ k) = 2 ^ Zpos k.
Proof. apply Pos2Z.inj_pow. Qed.

(** The comparison of a positive canonical value [m * 2^e] of precision [P]
    with one half, whose mantissa is [2^(P-1)] and exponent [-P]. *)
Ltac against_half P e Hhi Hlo :=
  unfold Qcompare;
  let n := eval cbv in (- P) in
  destruct (Z.compare_spec n e) as [He | He | He];
  [ subst e; cbn [Qnum Qden];
    rewrite Pos.compare_cont_spec; cbn [Pos.switch_Eq];
    rewrite Pos2Z.inj_compare, pow2_pos;
    match goal with
    | |- context [Pos.switch_Eq Eq (?a ?= ?b)] =>
        destruct (Z.compare_spec a b); cbn [Pos.switch_Eq];
        symmetry; [apply Z.compare_eq_iff | apply Z.compare_lt_iff
                   | apply Z.compare_gt_iff]; lia
    end
  | symmetry; apply Z.compare_lt_iff;
    assert (Hm : 2 ^ (P - 1) <= Zpos _) by (apply Hlo; lia);
    destruct e as [ | k | k]; cbn [Qnum Qden];
    [ lia
    | rewrite pow2_pos;
      assert (0 < 2 ^ Zpos k) by (apply Z.pow_pos_nonneg; lia); nia
    | rewrite pow2_pos;
      assert (2 ^ Zpos k <= 2 ^ (P - 1)) by (apply Z.pow_le_mono_r; lia); lia ]
  | symmetry; apply Z.compare_gt_iff;
    destruct e as [ | k | k]; cbn [Qnum Qden]; try lia;
    rewrite pow2_pos;
    assert (2 ^ (P + 1) <= 2 ^ Zpos k) by (apply Z.pow_le_mono_r; lia); lia ].

(** On a valid value of either float type the IEEE comparison with 0.5 is
    the comparison of the rationals denoted. *)
Lemma compare_half (f : format) (p : spec_float) (q : Q) :
  IEEE.valid f p = true ->
  IEEE.to_Q p = Some q ->
  SFcompare (IEEE.half f) p = Some (Qcompare (1 # 2) q).
Proof.
  destruct p as [s | s | | s m e]; cbn [IEEE.to_Q]; intros Hv Hq;
    try discriminate; injection Hq as <-.
  - destruct f; reflexivity.
  - unfold IEEE.valid, valid_binary, bounded in Hv.
    apply andb_prop in Hv as [Hc _].
    apply canonical_bounds in Hc as [Hhi Hlo].
    destruct s.
    + (* negative *)
      destruct f; cbn [IEEE.half SFcompare cond_Zopp]; f_equal; symmetry;
        unfold Qcompare; destruct e; cbn [Qnum Qden]; apply Z.compare_gt_iff; lia.
    + destruct f; cbn [IEEE.prec IEEE.emax] in Hhi, Hlo; unfold emin in Hlo;
        cbn [IEEE.half SFcompare cond_Zopp]; f_equal.
      * against_half 24 e Hhi Hlo.
      * against_half 53 e Hhi Hlo.
Qed.

End Half.

(** ** The preprocessing transform *)

Lemma length_concat_uniform {A} (n : nat) (l : list (list A)) :
  Forall (fun r => List.length r = n) l ->
  List.length (List.concat l) = List.length l * n.
Proof.
  induction 1 as [ | r l Hr _ IH]; cbn [List.concat List.length]; [reflexivity | ].
  rewrite length_app, Hr, IH. reflexivity.
Qed.

Lemma Forall_map_const {A B} (P : B -> Prop) (f : A -> B) (l : list A) :
  (forall x, P (f x)) -> Forall P (map f l).
Proof. intros H. induction l; cbn; constructor; auto. Qed.

(** A byte divided by 255.0 lies in the unit interval. *)
Lemma byte_over_255_in_unit_interval (b : byte) :
  in_unit_interval
    (IEEE.div binary64 (float_of_byte binary64 b) (IEEE.of_Z binary64 255)).
Proof. destruct b; split; vm_compute; reflexivity. Qed.

Section PreprocessFacts.

Variable luma_other : string -> list byte -> list byte -> byte.
Variable resample : list (list byte) -> nat * nat -> nat * nat -> nat -> nat -> byte.

Local Abbreviation preprocess := (preprocess_image luma_other resample).
Local Abbreviation scaled :=
  (map (fun b => IEEE.div binary64 (float_of_byte binary64 b) (IEEE.of_Z binary64 255))).

(** The greyscale branch: no channel axis. *)
Lemma preprocess_image_gray (image : Image) :
  mode image = "L" ->
  preprocess image =
  ArrF binary64 [1; 224; 224]
       (scaled (List.concat (map (map (fun px => hd x00 px))
                                 (pixels (resize resample image (224, 224)))))).
Proof.
  intros Hmode. unfold preprocess_image. rewrite Hmode.
  cbn [String.eqb Ascii.eqb Bool.eqb negb].
  unfold np_array. cbn [size resize mode]. rewrite Hmode. reflexivity.
Qed.

(** Every other mode: converted, replicated into three channels. *)
Lemma preprocess_image_colour (image : Image) :
  String.eqb (mode image) "L" = false ->
  preprocess image =
  ArrF binary64 [1; 224; 224; 3]
       (scaled (List.concat (List.concat
          (pixels (resize resample
                     (let c := convert_L luma_other image in merge "RGB" (c, c, c))
                     (224, 224)))))).
Proof.
  intros Hmode. unfold preprocess_image. rewrite Hmode. reflexivity.
Qed.

Lemma resize_rows (image : Image) (w h : nat) :
  List.length (pixels (resize resample image (w, h))) = h
  /\ Forall (fun row => List.length row = w
                        /\ Forall (fun px => List.length px = bands (mode image)) row)
            (pixels (resize resample image (w, h))).
Proof.
  unfold resize. cbn [pixels fst snd]. split.
  - rewrite length_map, length_seq. reflexivity.
  - apply Forall_map_const. intros y. split.
    + rewrite length_map, length_seq. reflexivity.
    + apply Forall_map_const. intros x.
      rewrite !length_map, length_seq. reflexivity.
Qed.

(** The data fill the shape. *)
Lemma preprocess_image_size (image : Image) :
  size_of (preprocess image) = product (shape_of (preprocess image)).
Proof.
  destruct (String.eqb (mode image) "L") eqn:Hmode.
  - apply String.eqb_eq in Hmode. rewrite (preprocess_image_gray _ Hmode).
    cbn [size_of shape_of]. rewrite length_map.
    destruct (resize_rows image 224 224) as [Hrows Hrow].
    rewrite (length_concat_uniform 224).
    + rewrite length_map, Hrows. unfold product. cbn [fold_right]. lia.
    + apply Forall_forall. intros r Hr. apply in_map_iff in Hr as (row & <- & Hin).
      rewrite length_map. rewrite Forall_forall in Hrow. apply (Hrow row Hin).
  - rewrite (preprocess_image_colour _ Hmode).
    cbn [size_of shape_of]. rewrite length_map.
    set (rgb := let c := convert_L luma_other image in merge "RGB" (c, c, c)).
    destruct (resize_rows rgb 224 224) as [Hrows Hrow].
    rewrite (length_concat_uniform 3).
    + rewrite (length_concat_uniform 224).
      * rewrite Hrows. unfold product. cbn [fold_right]. lia.
      * eapply Forall_impl; [ | exact Hrow]. cbn beta. tauto.
    + apply Forall_forall. intros px Hpx. apply in_concat in Hpx as (row & Hin & Hpx).
      rewrite Forall_forall in Hrow. destruct (Hrow row Hin) as [_ Hb].
      rewrite Forall_forall in Hb. apply (Hb px Hpx).
Qed.

(** Every element is in [0.0, 1.0], whatever the mode. *)
Lemma preprocess_image_range (image : Image) :
  Forall in_unit_interval (elements (preprocess image)).
Proof.
  destruct (String.eqb (mode image) "L") eqn:Hmode.
  - apply String.eqb_eq in Hmode. rewrite (preprocess_image_gray _ Hmode).
    cbn [elements]. apply Forall_map_const, byte_over_255_in_unit_interval.
  - rewrite (preprocess_image_colour _ Hmode).
    cbn [elements]. apply Forall_map_const, byte_over_255_in_unit_interval.
Qed.

Lemma preprocess_image_dtype (image : Image) :
  dtype_of (preprocess image) = float64.
Proof.
  destruct (String.eqb (mode image) "L") eqn:Hmode.
  - apply String.eqb_eq in Hmode. rewrite (preprocess_image_gray _ Hmode). reflexivity.
  - rewrite (preprocess_image_colour _ Hmode). reflexivity.
Qed.

(** *** A greyscale image and its RGB equivalent *)

Lemma rgb2l_gray (v : byte) : rgb2l [v; v; v] = v.
Proof. destruct v; reflexivity. Qed.

Lemma map3_diag {A D} (f : A -> A -> A -> D) (l : list A) :
  map3 f l l l = map (fun x => f x x x) l.
Proof. induction l as [ | x l IH]; cbn; [ | rewrite IH]; reflexivity. Qed.

Lemma nth_0_hd (px : list byte) : nth 0 px x00 = hd x00 px.
Proof. destruct px; reflexivity. Qed.

Lemma replicated_pixels (g : Image) :
  pixels (replicated luma_other g) =
  map (map (fun px => let v := hd x00 px in [v; v; v])) (pixels g).
Proof.
  unfold replicated, merge, convert_L, as_rgb. cbn [pixels mode palette size].
  rewrite map3_diag, !map_map. apply map_ext. intros row.
  rewrite map3_diag, !map_map. apply map_ext. intros px.
  unfold luma. cbn [mode String.eqb Ascii.eqb Bool.eqb hd].
  rewrite rgb2l_gray. reflexivity.
Qed.

Lemma replicated_plane (g : Image) (k : nat) :
  k < 3 -> plane k (replicated luma_other g) = map (map (fun px => hd x00 px)) (pixels g).
Proof.
  intros Hk. unfold plane. rewrite replicated_pixels, map_map.
  apply map_ext. intros row. rewrite map_map. apply map_ext. intros px.
  destruct k as [ | [ | [ | k]]]; try reflexivity. lia.
Qed.

Lemma concat_triples (rows : list (list byte)) :
  List.concat (List.concat (map (map (fun v => [v; v; v])) rows))
  = flat_map (fun v => [v; v; v]) (List.concat rows).
Proof.
  induction rows as [ | row rows IH]; cbn [map List.concat]; [reflexivity | ].
  rewrite concat_app, IH, flat_map_app. f_equal.
  clear. induction row as [ | v row IH]; cbn; [ | rewrite IH]; reflexivity.
Qed.

Lemma map_triples {A B} (f : A -> B) (l : list A) :
  map f (flat_map (fun v => [v; v; v]) l)
  = flat_map (fun v => [v; v; v]) (map f l).
Proof. induction l as [ | x l IH]; cbn; [ | rewrite IH]; reflexivity. Qed.

Lemma triples_of_hd (P : list (list (list byte))) :
  map (map (fun px => let v := hd x00 px in [v; v; v])) P
  = map (map (fun v => [v; v; v])) (map (map (fun px => hd x00 px)) P).
Proof.
  rewrite map_map. apply map_ext. intros row. rewrite map_map. reflexivity.
Qed.

(** Resizing commutes with the replication: every band of the replicated
    image is the one band of the greyscale image. *)
Lemma resize_replicated (g : Image) (target_size : nat * nat) :
  mode g = "L" ->
  pixels (resize resample (replicated luma_other g) target_size)
  = map (map (fun px => let v := hd x00 px in [v; v; v]))
        (pixels (resize resample g target_size)).
Proof.
  intros Hmode. unfold resize. cbn [pixels].
  change (mode (replicated luma_other g)) with "RGB".
  change (size (replicated luma_other g)) with (size g).
  rewrite Hmode.
  change (bands "RGB") with 3. change (bands "L") with 1.
  change (seq 0 3) with [0; 1; 2]. change (seq 0 1) with [0].
  rewrite map_map. apply map_ext. intros y.
  rewrite map_map. apply map_ext. intros x.
  cbn [map hd]. rewrite !replicated_plane by lia.
  unfold plane.
  rewrite (map_ext (map (fun px => nth 0 px x00)) (map (fun px => hd x00 px)))
    by (intros row; apply map_ext, nth_0_hd).
  reflexivity.
Qed.

(** The RGB equivalent yields the values of the greyscale image, each
    repeated along a channel axis of length three that the greyscale
    tensor lacks. *)
Lemma preprocess_image_as_rgb (g : Image) :
  mode g = "L" ->
  shape_of (preprocess g) = [1; 224; 224]
  /\ shape_of (preprocess (as_rgb g)) = [1; 224; 224; 3]
  /\ elements (preprocess (as_rgb g))
     = flat_map (fun v => [v; v; v]) (elements (preprocess g)).
Proof.
  intros Hmode.
  rewrite (preprocess_image_gray _ Hmode).
  rewrite (preprocess_image_colour (as_rgb g)) by reflexivity.
  split; [reflexivity | split; [reflexivity | ]].
  cbn [elements].
  pose proof (resize_replicated g (224, 224) Hmode) as Hresize.
  unfold replicated in Hresize. rewrite Hresize.
  rewrite triples_of_hd, concat_triples, map_triples. reflexivity.
Qed.

End PreprocessFacts.

(** ** The predictor *)

Lemma nth_error_update {A} (l : list A) (n : nat) (x y : A) :
  nth_error l n = Some x -> nth_error (update n y l) n = Some y.
Proof.
  revert n. induction l as [ | z l IH]; intros [ | n] H; cbn in *;
    try discriminate; auto.
Qed.

Lemma method_run {A} (h : nat) (op : Interpreter -> res (Interpreter * A))
      (w : World) (i : Interpreter) :
  nth_error (heap w) h = Some i ->
  method h op w =
  match op i with
  | inl e => (inl e, w)
  | inr (i', x) =>
      (inr x, {| page := page w; calls := calls w;
                 heap := update h i' (heap w); cache := cache w |})
  end.
Proof. intros H. unfold method. rewrite H. reflexivity. Qed.

(** When the forward pass answers the 1x1 float tensor [[p]], the
    predictor returns the label of [p] with [p] itself and renders nothing. *)
Lemma predict_answers (h : nat) (a : ndarray) (w : World) (i : Interpreter)
      (f : format) (p : spec_float) :
  nth_error (heap w) h = Some i ->
  answers i (astype_float32 a) (ArrF f [1; 1] [p]) ->
  exists hp,
    predict_pcos_tflite h a w =
    (inr (Some (label_of f p), Some (scalar f p)),
     {| page := page w; calls := calls w ++ ["predict_pcos_tflite"];
        heap := hp; cache := cache w |}).
Proof.
  intros Hh (input0 & inputs & output0 & outputs & t & Hin & Hout & Hbind & Hfwd & Hget).
  destruct w as [pg cl hp ca]. cbn [heap] in Hh.
  unfold predict_pcos_tflite, get_input_details, get_output_details,
    set_tensor, invoke, get_tensor.
  unfold bind at 1. unfold enter, log. cbn [page calls heap cache].
  unfold try_except, bind.
  rewrite (method_run _ _ _ i) by exact Hh. cbn [page calls heap cache].
  rewrite (method_run _ _ _ i) by (cbn [heap]; eapply nth_error_update, Hh).
  cbn [page calls heap cache]. rewrite Hin. cbn [first ret].
  rewrite (method_run _ _ _ i) by
      (cbn [heap]; eapply nth_error_update, nth_error_update, Hh).
  rewrite Hbind. cbn [page calls heap cache].
  erewrite method_run by
      (cbn [heap]; eapply nth_error_update, nth_error_update, nth_error_update, Hh).
  cbn [tensors with_tensors forward]. rewrite Hfwd. cbn [page calls heap cache].
  rewrite Hout. cbn [first ret].
  erewrite method_run by
      (cbn [heap]; do 4 eapply nth_error_update; exact Hh).
  cbn [tensors with_tensors]. rewrite Hget. cbn [page calls heap cache].
  cbn [item0 getitem0 ret product fold_right Nat.mul firstn lift greater_half map truth].
  unfold label_of, scalar. eexists. reflexivity.
Qed.

(** When binding or the forward pass raises [e], the predictor catches it,
    renders the error and returns [(None, None)]. *)
Lemma predict_fails (h : nat) (a : ndarray) (w : World) (i : Interpreter) (e : exn) :
  nth_error (heap w) h = Some i ->
  fails_on i (astype_float32 a) e ->
  exists hp,
    predict_pcos_tflite h a w =
    (inr (None, None),
     {| page := page w ++ [st_error ("Error during prediction: " ++ str e)];
        calls := calls w ++ ["predict_pcos_tflite"];
        heap := hp; cache := cache w |}).
Proof.
  intros Hh (input0 & inputs & Hin & Hfail).
  destruct w as [pg cl hp ca]. cbn [heap] in Hh.
  unfold predict_pcos_tflite, get_input_details, get_output_details,
    set_tensor, invoke, get_tensor.
  unfold bind at 1. unfold enter, log. cbn [page calls heap cache].
  unfold try_except, bind.
  rewrite (method_run _ _ _ i) by exact Hh. cbn [page calls heap cache].
  rewrite (method_run _ _ _ i) by (cbn [heap]; eapply nth_error_update, Hh).
  cbn [page calls heap cache]. rewrite Hin. cbn [first ret].
  rewrite (method_run _ _ _ i) by
      (cbn [heap]; eapply nth_error_update, nth_error_update, Hh).
  destruct Hfail as [Hbind | [Hbind Hfwd]]; rewrite Hbind.
  - unfold emit, push, ret. cbn [page calls heap cache]. eexists. reflexivity.
  - cbn [page calls heap cache].
    erewrite method_run by
        (cbn [heap]; eapply nth_error_update, nth_error_update, nth_error_update, Hh).
    cbn [tensors with_tensors forward]. rewrite Hfwd.
    unfold emit, push, ret. cbn [page calls heap cache]. eexists. reflexivity.
Qed.

(** *** The two outcomes of the predictor *)

Lemma quiet_ret {A} (Q : A -> Prop) (x : A) : Q x -> quiet Q (ret x).
Proof. intros H w. split; [reflexivity | exact H]. Qed.

Lemma quiet_raise {A} (Q : A -> Prop) (e : exn) : quiet Q (@raise A e).
Proof. intros w. split; [reflexivity | exact I]. Qed.

Lemma quiet_lift {A} (r : res A) : quiet (fun _ => True) (lift r).
Proof. intros w. split; [reflexivity | destruct r; exact I]. Qed.

Lemma quiet_method {A} (h : nat) (op : Interpreter -> res (Interpreter * A)) :
  quiet (fun _ => True) (method h op).
Proof.
  intros w. unfold method.
  destruct (nth_error (heap w) h) as [i | ]; [ | split; [reflexivity | exact I]].
  destruct (op i) as [e | [i' x]]; split; try reflexivity; exact I.
Qed.

Lemma quiet_first {A} (l : list A) : quiet (fun _ => True) (first l).
Proof. destruct l; [apply quiet_raise | apply quiet_ret; exact I]. Qed.

Lemma quiet_item0 (a : ndarray) : quiet (fun _ => True) (item0 a).
Proof.
  unfold item0. destruct (getitem0 a); [apply quiet_ret; exact I | apply quiet_raise].
Qed.

Lemma quiet_bind {A B} (Q : B -> Prop) (m : M A) (k : A -> M B) :
  quiet (fun _ => True) m -> (forall x, quiet Q (k x)) -> quiet Q (bind m k).
Proof.
  intros Hm Hk w. unfold bind. destruct (Hm w) as [Hpage _].
  destruct (m w) as [[e | x] w']; cbn [fst snd] in *; [split; [exact Hpage | exact I] | ].
  destruct (Hk x w') as [Hpage' HQ]. split; [congruence | exact HQ].
Qed.

(** The predictor never raises, and there are two outcomes only. Either the
    guarded block ran to its end: a label and a probability are returned and
    nothing is rendered. Or an exception was caught: [(None, None)] is
    returned and the error is rendered. *)
Lemma predict_outcome (h : nat) (a : ndarray) (w : World) :
  exists w',
    (exists label probability,
        predict_pcos_tflite h a w = (inr (Some label, Some probability), w')
        /\ (label = "PCOS Negative" \/ label = "PCOS Positive")
        /\ page w' = page w)
    \/ (exists e,
        predict_pcos_tflite h a w = (inr (None, None), w')
        /\ page w' = page w ++ [st_error ("Error during prediction: " ++ str e)]).
Proof.
  unfold predict_pcos_tflite.
  match goal with
  | |- context [try_except ?block _] => set (guarded := block)
  end.
  assert (Hbody : quiet labelled guarded).
  { subst guarded.
    unfold get_input_details, get_output_details, set_tensor, invoke, get_tensor.
    repeat (apply quiet_bind;
            [first [apply quiet_method | apply quiet_first
                   | apply quiet_item0 | apply quiet_lift] | intros ?]).
    apply quiet_ret.
    match goal with above : bool |- _ => destruct above end;
      do 2 eexists; (split; [reflexivity | auto]). }
  specialize (Hbody (log "predict_pcos_tflite" w)).
  unfold bind, enter, try_except.
  destruct (guarded (log "predict_pcos_tflite" w)) as [[e | r] w1];
    cbn [fst snd] in Hbody; destruct Hbody as [Hpage Hr].
  - exists (push (st_error ("Error during prediction: " ++ str e)) w1).
    right. exists e. split; [reflexivity | ].
    cbn [push page]. rewrite Hpage. reflexivity.
  - destruct Hr as (label & probability & -> & Hlabel).
    exists w1. left. exists label, probability.
    split; [reflexivity | split; [exact Hlabel | exact Hpage]].
Qed.

(** ** The script *)

Lemma replay_run (es : list element) (w : World) :
  replay es w =
  (inr tt, {| page := page w ++ es; calls := calls w;
              heap := heap w; cache := cache w |}).
Proof.
  revert w. induction es as [ | e es IH]; intros w; cbn [replay].
  - destruct w. unfold ret. cbn [page calls heap cache]. rewrite app_nil_r. reflexivity.
  - unfold bind, emit. rewrite IH. unfold push. cbn [page calls heap cache].
    rewrite <- app_assoc. reflexivity.
Qed.

(** *** What a computation may add to the page *)

Lemma grows_refl (P : element -> Prop) (w : World) : grows P w w.
Proof. split; exists []; rewrite app_nil_r; auto. Qed.

Lemma grows_trans (P : element -> Prop) (w1 w2 w3 : World) :
  grows P w1 w2 -> grows P w2 w3 -> grows P w1 w3.
Proof.
  intros [(p1 & Hp1 & HP1) (c1 & Hc1)] [(p2 & Hp2 & HP2) (c2 & Hc2)]. split.
  - exists (p1 ++ p2). rewrite Hp2, Hp1, app_assoc. split; [reflexivity | ].
    apply Forall_app. auto.
  - exists (c1 ++ c2). rewrite Hc2, Hc1, app_assoc. reflexivity.
Qed.

Lemma renders_ret {A} P (x : A) : renders P (ret x).
Proof. intros w. apply grows_refl. Qed.

Lemma renders_raise {A} P (e : exn) : renders P (@raise A e).
Proof. intros w. apply grows_refl. Qed.

Lemma renders_lift {A} P (r : res A) : renders P (lift r).
Proof. intros w. apply grows_refl. Qed.

Lemma renders_emit P (e : element) : P e -> renders P (emit e).
Proof.
  intros H w. split; cbn.
  - exists [e]. auto.
  - exists []. rewrite app_nil_r. reflexivity.
Qed.

Lemma renders_enter P (f : string) : renders P (enter f).
Proof.
  intros w. split; cbn.
  - exists []. rewrite app_nil_r. auto.
  - exists [f]. reflexivity.
Qed.

Lemma renders_method {A} P (h : nat) (op : Interpreter -> res (Interpreter * A)) :
  renders P (method h op).
Proof.
  intros w. unfold method.
  destruct (nth_error (heap w) h) as [i | ]; [ | apply grows_refl].
  destruct (op i) as [e | [i' x]]; [apply grows_refl | ].
  split; cbn; exists []; rewrite app_nil_r; auto.
Qed.

Lemma renders_bind {A B} P (m : M A) (k : A -> M B) :
  renders P m -> (forall x, renders P (k x)) -> renders P (bind m k).
Proof.
  intros Hm Hk w. unfold bind. specialize (Hm w).
  destruct (m w) as [[e | x] w']; cbn [snd] in *; [exact Hm | ].
  eapply grows_trans; [exact Hm | apply Hk].
Qed.

Lemma renders_try {A} P (m : M A) (handler : exn -> M A) :
  renders P m -> (forall e, renders P (handler e)) -> renders P (try_except m handler).
Proof.
  intros Hm Hh w. unfold try_except. specialize (Hm w).
  destruct (m w) as [[e | x] w']; cbn [snd] in *; [ | exact Hm].
  eapply grows_trans; [exact Hm | apply Hh].
Qed.

Lemma renders_first {A} P (l : list A) : renders P (first l).
Proof. destruct l; [apply renders_raise | apply renders_ret]. Qed.

Lemma renders_item0 P (a : ndarray) : renders P (item0 a).
Proof. unfold item0. destruct (getitem0 a); [apply renders_ret | apply renders_raise]. Qed.

Create HintDb renders discriminated.
#[local] Hint Resolve renders_ret renders_raise renders_lift renders_enter
  renders_method renders_first renders_item0 : renders.

(** The predictor renders at most its own error message. *)
Lemma renders_predict P (h : nat) (a : ndarray) :
  (forall msg, P (st_error ("Error during prediction: " ++ msg))) ->
  renders P (predict_pcos_tflite h a).
Proof.
  intros HP. unfold predict_pcos_tflite, get_input_details, get_output_details,
               set_tensor, invoke, get_tensor.
  apply renders_bind; [auto with renders | intros _].
  apply renders_try.
  - repeat (apply renders_bind; [auto with renders | intros ?]).
    auto with renders.
  - intros e. apply renders_bind; [apply renders_emit, HP | auto with renders].
Qed.

(** The predictor logs its entry first. *)
Lemma predict_calls (h : nat) (a : ndarray) (w : World) :
  exists rest,
    calls (snd (predict_pcos_tflite h a w)) = calls w ++ "predict_pcos_tflite" :: rest.
Proof.
  unfold predict_pcos_tflite. unfold bind at 1. cbn [enter].
  set (guarded := try_except _ _).
  assert (Hr : renders (fun _ => True) guarded).
  { subst guarded. unfold get_input_details, get_output_details,
                     set_tensor, invoke, get_tensor.
    apply renders_try.
    - repeat (apply renders_bind; [auto with renders | intros ?]).
      auto with renders.
    - intros e. apply renders_bind; [apply renders_emit; exact I | auto with renders]. }
  destruct (Hr (log "predict_pcos_tflite" w)) as [_ (rest & Hrest)].
  exists rest. rewrite Hrest. cbn [log calls]. rewrite <- app_assoc. reflexivity.
Qed.

Lemma run_emit {B} (e : element) (k : unit -> M B) (w : World) :
  bind (emit e) k w = k tt (push e w).
Proof. reflexivity. Qed.

Lemma run_enter {B} (f : string) (k : unit -> M B) (w : World) :
  bind (enter f) k w = k tt (log f w).
Proof. reflexivity. Qed.

Lemma run_bind {A B} (m : M A) (k : A -> M B) (w w' : World) (x : A) :
  m w = (inr x, w') -> bind m k w = k x w'.
Proof. intros H. unfold bind. rewrite H. reflexivity. Qed.

Lemma run_bind_raise {A B} (m : M A) (k : A -> M B) (w w' : World) (e : exn) :
  m w = (inl e, w') -> bind m k w = (inl e, w').
Proof. intros H. unfold bind. rewrite H. reflexivity. Qed.

Lemma run_try {A} (m : M A) (handler : exn -> M A) (w w' : World) (x : A) :
  m w = (inr x, w') -> try_except m handler w = (inr x, w').
Proof. intros H. unfold try_except. rewrite H. reflexivity. Qed.

Lemma run_try_raise {A} (m : M A) (handler : exn -> M A) (w w' : World) (e : exn) :
  m w = (inl e, w') -> try_except m handler w = handler e w'.
Proof. intros H. unfold try_except. rewrite H. reflexivity. Qed.

Lemma run_assoc {A B C} (m : M A) (k : A -> M B) (k' : B -> M C) (w : World) :
  bind (bind m k) k' w = bind m (fun x => bind (k x) k') w.
Proof. unfold bind. destruct (m w) as [[e | x] w']; reflexivity. Qed.

Lemma within_limit (n : Z) :
  (n <= 10485760)%Z -> (n >? 10 * 1024 * 1024)%Z = false.
Proof. intros H. rewrite Z.gtb_ltb. apply Z.ltb_ge. lia. Qed.

Lemma beyond_limit (n : Z) :
  (n > 10485760)%Z -> (n >? 10 * 1024 * 1024)%Z = true.
Proof. intros H. rewrite Z.gtb_ltb. apply Z.ltb_lt. lia. Qed.

Ltac emits := repeat (rewrite run_emit || rewrite run_enter); cbv beta iota zeta.

Ltac tidy := cbn [push log page calls heap cache app fst snd].

Section ScriptFacts.

Variable luma_other : string -> list byte -> list byte -> byte.
Variable resample : list (list byte) -> nat * nat -> nat * nat -> nat -> nat -> byte.
Variable decode : UploadedFile -> res Image.
Variable model_file : string -> res Interpreter.
Variable nep50 : bool.

Local Abbreviation preprocess := (preprocess_image luma_other resample).
Local Abbreviation load := (load_tflite_model model_file).
Local Abbreviation run := (rerun luma_other resample decode model_file nep50).

Lemma load_cached (w : World) (rendered : list element) (value : option nat) :
  cache w = Some (rendered, value) ->
  load w = (inr value, {| page := page w ++ rendered; calls := calls w;
                          heap := heap w; cache := cache w |}).
Proof.
  intros H. unfold load_tflite_model, cache_resource. rewrite H.
  unfold bind. rewrite replay_run. unfold ret. cbn [page calls heap cache].
  rewrite H. reflexivity.
Qed.

Lemma load_cold_fails (w : World) :
  cache w = None ->
  load_fails model_file w ->
  exists e hp,
    let shown := st_error ("Error loading TFLite model: " ++ str e) in
    load w = (inr None, {| page := page w ++ [shown]; calls := calls w;
                           heap := hp; cache := Some ([shown], None) |}).
Proof.
  intros Hc Hf. unfold load_fails in Hf. rewrite Hc in Hf.
  unfold load_tflite_model, cache_resource. rewrite Hc.
  unfold try_except, bind, Interpreter_new.
  destruct (model_file "pcos_detection_model.tflite") as [e | i].
  - exists e, (heap w). reflexivity.
  - destruct (allocate_error i) as [e | ] eqn:Ha; [ | contradiction].
    exists e, (heap w ++ [i]).
    unfold allocate_tensors. cbn [page calls heap cache].
    erewrite method_run.
    2:{ cbn [heap]. rewrite nth_error_app2, Nat.sub_diag by lia. reflexivity. }
    rewrite Ha. reflexivity.
Qed.

Lemma load_cold_succeeds (w : World) (i : Interpreter) :
  cache w = None ->
  model_file "pcos_detection_model.tflite" = inr i ->
  allocate_error i = None ->
  exists hp,
    nth_error hp (List.length (heap w)) = Some i /\
    load w = (inr (Some (List.length (heap w))),
              {| page := page w ++ []; calls := calls w; heap := hp;
                 cache := Some ([], Some (List.length (heap w))) |}).
Proof.
  intros Hc Hm Ha.
  unfold load_tflite_model, cache_resource. rewrite Hc.
  unfold try_except, bind, Interpreter_new. rewrite Hm.
  unfold allocate_tensors. cbn [page calls heap cache].
  assert (Hn : nth_error (heap w ++ [i]) (List.length (heap w)) = Some i)
    by (rewrite nth_error_app2, Nat.sub_diag by lia; reflexivity).
  erewrite method_run by (cbn [heap]; exact Hn).
  rewrite Ha. cbn [page calls heap cache ret].
  eexists. split; [ | reflexivity].
  eapply nth_error_update, Hn.
Qed.

Lemma started_ready (w : World) (h : nat) :
  cache w = Some ([], Some h) ->
  load (List.fold_left (fun w e => push e w) static_elements (fresh w))
  = (inr (Some h), started w).
Proof.
  intros Hc. erewrite load_cached by (cbn; exact Hc). reflexivity.
Qed.

Lemma rerun_no_upload (w : World) (h : nat) (i : Interpreter) (btn : bool) :
  ready w h i ->
  page (run w None btn) = static_elements ++ [st_columns [1; 2; 1]; st_markdown placeholder]
  /\ calls (run w None btn) = [].
Proof.
  intros [Hc _]. unfold rerun, main. emits.
  erewrite run_bind by (apply (started_ready w h Hc)).
  emits. unfold emit. tidy. split; reflexivity.
Qed.

Lemma rerun_oversize (w : World) (h : nat) (i : Interpreter)
      (f : UploadedFile) (btn : bool) :
  ready w h i ->
  (file_size f > 10485760)%Z ->
  page (run w (Some f) btn) = static_elements ++ [size_error]
  /\ calls (run w (Some f) btn) = [].
Proof.
  intros [Hc _] Hs. unfold rerun, main. emits.
  erewrite run_bind by (apply (started_ready w h Hc)).
  rewrite (beyond_limit _ Hs).
  unfold emit. tidy. split; reflexivity.
Qed.

Lemma rerun_undecodable (w : World) (h : nat) (i : Interpreter)
      (f : UploadedFile) (btn : bool) (e : exn) :
  ready w h i ->
  (file_size f <= 10485760)%Z ->
  decode f = inl e ->
  page (run w (Some f) btn) =
    static_elements ++
    [st_error ("Error processing image: " ++ str e);
     st_write "Please ensure you've uploaded a valid image file."]
  /\ calls (run w (Some f) btn) = ["Image.open"].
Proof.
  intros [Hc _] Hs Hd. unfold rerun, main. emits.
  erewrite run_bind by (apply (started_ready w h Hc)).
  rewrite (within_limit _ Hs).
  erewrite run_try_raise.
  2:{ unfold Image_open. rewrite run_assoc, run_enter.
      apply run_bind_raise. unfold lift. rewrite Hd. reflexivity. }
  emits. unfold emit. tidy. split; reflexivity.
Qed.

Lemma rerun_idle (w : World) (h : nat) (i : Interpreter)
      (f : UploadedFile) (image : Image) :
  ready w h i ->
  (file_size f <= 10485760)%Z ->
  decode f = inr image ->
  page (run w (Some f) false) =
    static_elements ++
    [st_columns [1; 2; 1]; st_markdown image_container_open;
     st_image image "Uploaded Image"; st_markdown image_container_close]
  /\ calls (run w (Some f) false) = ["Image.open"].
Proof.
  intros [Hc _] Hs Hd. unfold rerun, main. emits.
  erewrite run_bind by (apply (started_ready w h Hc)).
  rewrite (within_limit _ Hs).
  erewrite run_try.
  2:{ unfold Image_open. rewrite run_assoc, run_enter.
      erewrite run_bind by (unfold lift; rewrite Hd; reflexivity).
      emits. reflexivity. }
  tidy. split; reflexivity.
Qed.

(** Beyond the finite values: plus infinity is above one half; minus
    infinity and NaN, for which the comparison is false, take the other
    branch. *)
Lemma label_of_special (f : format) :
  label_of f (S754_infinity false) = "PCOS Negative"
  /\ label_of f (S754_infinity true) = "PCOS Positive"
  /\ label_of f S754_nan = "PCOS Positive".
Proof. destruct f; repeat split; reflexivity. Qed.

Lemma label_of_cases (f : format) (p : spec_float) :
  label_of f p = "PCOS Negative" \/ label_of f p = "PCOS Positive".
Proof. unfold label_of. destruct (SFltb _ p); auto. Qed.

Lemma rerun_result (w : World) (h : nat) (i : Interpreter)
      (f : UploadedFile) (image : Image) (p : spec_float) :
  ready w h i ->
  (file_size f <= 10485760)%Z ->
  decode f = inr image ->
  answers i (astype_float32 (preprocess image)) (ArrF binary32 [1; 1] [p]) ->
  page (run w (Some f) true) =
    static_elements ++ analysed image ++
    [st_columns [1; 2; 1];
     st_markdown
       (result_card
          (if contains "Positive" (label_of binary32 p) then "red" else "green")
          (label_of binary32 p)
          (format_percent2
             (IEEE.convert binary64
                (confidence (arith_format nep50 (scalar binary32 p)) p))))]
  /\ calls (run w (Some f) true) =
     ["Image.open"; "preprocess_image"; "predict_pcos_tflite"].
Proof.
  intros [Hc Hh] Hs Hd Ha. unfold rerun, main. emits.
  erewrite run_bind by (apply (started_ready w h Hc)).
  rewrite (within_limit _ Hs).
  destruct (predict_answers h (preprocess image)
              (log "preprocess_image"
                 (List.fold_left (fun w e => push e w) (analysed image)
                                 (log "Image.open" (started w))))
              i binary32 p Hh Ha) as [hp Hp].
  erewrite run_try.
  2:{ unfold Image_open. rewrite run_assoc, run_enter.
      erewrite run_bind by (unfold lift; rewrite Hd; reflexivity).
      emits.
      erewrite run_bind by exact Hp.
      cbv beta iota zeta. unfold render_result.
      replace (truthy (Some (label_of binary32 p))) with true
        by (destruct (label_of_cases binary32 p) as [-> | ->]; reflexivity).
      emits.
      unfold format_confidence. cbn [shape_of elements scalar lift].
      erewrite run_bind by reflexivity.
      unfold emit. reflexivity. }
  tidy. split; reflexivity.
Qed.

Lemma rerun_prediction_error (w : World) (h : nat) (i : Interpreter)
      (f : UploadedFile) (image : Image) (e : exn) :
  ready w h i ->
  (file_size f <= 10485760)%Z ->
  decode f = inr image ->
  fails_on i (astype_float32 (preprocess image)) e ->
  page (run w (Some f) true) =
    static_elements ++ analysed image ++
    [st_error ("Error during prediction: " ++ str e)]
  /\ calls (run w (Some f) true) =
     ["Image.open"; "preprocess_image"; "predict_pcos_tflite"].
Proof.
  intros [Hc Hh] Hs Hd Hf. unfold rerun, main. emits.
  erewrite run_bind by (apply (started_ready w h Hc)).
  rewrite (within_limit _ Hs).
  destruct (predict_fails h (preprocess image)
              (log "preprocess_image"
                 (List.fold_left (fun w e => push e w) (analysed image)
                                 (log "Image.open" (started w))))
              i e Hh Hf) as [hp Hp].
  erewrite run_try.
  2:{ unfold Image_open. rewrite run_assoc, run_enter.
      erewrite run_bind by (unfold lift; rewrite Hd; reflexivity).
      emits.
      erewrite run_bind by exact Hp.
      reflexivity. }
  tidy. split; reflexivity.
Qed.

(** *** An upload within the limit, whatever happens next *)

Lemma renders_render_result P (result : option string) (probability : option ndarray) :
  (forall e, (forall msg, e <> st_error msg) -> P e) ->
  renders P (render_result nep50 result probability).
Proof.
  intros HP. unfold render_result.
  destruct (truthy result); [ | auto with renders].
  destruct result as [label | ]; [ | auto with renders].
  apply renders_bind; [apply renders_emit, HP; discriminate | intros _].
  destruct probability as [p | ]; [ | auto with renders].
  apply renders_bind; [auto with renders | intros text].
  apply renders_emit, HP. discriminate.
Qed.

Lemma rerun_accepts (w : World) (h : nat) (i : Interpreter)
      (f : UploadedFile) (btn : bool) :
  ready w h i ->
  (file_size f <= 10485760)%Z ->
  In "Image.open" (calls (run w (Some f) btn))
  /\ ~ In size_error (page (run w (Some f) btn)).
Proof.
  intros [Hc _] Hs. unfold rerun, main. emits.
  erewrite run_bind by (apply (started_ready w h Hc)).
  rewrite (within_limit _ Hs).
  set (P := fun e : element => e <> size_error).
  match goal with
  | |- context [try_except (bind (Image_open decode f) ?k) ?handler (started w)] =>
      assert (Hopen : try_except (bind (Image_open decode f) k) handler (started w)
                      = try_except (bind (lift (decode f)) k) handler
                                   (log "Image.open" (started w)))
        by (unfold try_except, Image_open; rewrite run_assoc, run_enter; reflexivity);
      assert (Hr : renders P (try_except (bind (lift (decode f)) k) handler))
  end.
  { apply renders_try.
    - apply renders_bind; [auto with renders | intros image].
      repeat (apply renders_bind; [apply renders_emit; discriminate | intros _]).
      destruct btn; [ | auto with renders].
      apply renders_bind; [apply renders_emit; discriminate | intros _].
      apply renders_bind; [auto with renders | intros _].
      apply renders_bind.
      + apply renders_predict. intros msg. discriminate.
      + intros [result probability].
        apply renders_render_result. intros e He. subst P. cbn beta.
        unfold size_error. apply He.
    - intros e.
      apply renders_bind; [apply renders_emit; discriminate | intros _].
      apply renders_emit. discriminate. }
  rewrite Hopen.
  destruct (Hr (log "Image.open" (started w))) as [(new & Hpage & Hnew) (logged & Hcalls)].
  cbn [log started page calls app] in Hpage, Hcalls.
  rewrite Hpage, Hcalls. split.
  - left. reflexivity.
  - intros Hin. apply in_app_or in Hin as [Hin | Hin].
    + unfold static_elements, size_error in Hin. cbn [In] in Hin.
      repeat (destruct Hin as [Hin | Hin]; [discriminate | ]). exact Hin.
    + rewrite Forall_forall in Hnew. apply (Hnew _ Hin). reflexivity.
Qed.

(** A decodable upload within the limit, with the button pressed, is
    preprocessed and handed to the predictor, whatever the interpreter
    does. *)
Lemma rerun_processes (w : World) (h : nat) (i : Interpreter)
      (f : UploadedFile) (image : Image) :
  ready w h i ->
  (file_size f <= 10485760)%Z ->
  decode f = inr image ->
  exists rest,
    calls (run w (Some f) true)
    = "Image.open" :: "preprocess_image" :: "predict_pcos_tflite" :: rest.
Proof.
  intros [Hc _] Hs Hd. unfold rerun, main. emits.
  erewrite run_bind by (apply (started_ready w h Hc)).
  rewrite (within_limit _ Hs).
  set (w2 := log "preprocess_image"
                 (List.fold_left (fun w e => push e w) (analysed image)
                                 (log "Image.open" (started w)))).
  destruct (predict_calls h (preprocess image) w2) as [rest Hcalls].
  destruct (predict_pcos_tflite h (preprocess image) w2)
    as [[e | [result probability]] w3] eqn:Hp; cbn [snd] in Hcalls.
  - erewrite run_try_raise.
    2:{ unfold Image_open. rewrite run_assoc, run_enter.
        erewrite run_bind by (unfold lift; rewrite Hd; reflexivity).
        emits. apply run_bind_raise. exact Hp. }
    emits. unfold emit. tidy. rewrite Hcalls. exists rest. reflexivity.
  - set (shown := render_result nep50 result probability).
    assert (Hshown : renders (fun _ => True) shown).
    { subst shown. apply renders_render_result. auto. }
    destruct (Hshown w3) as [_ (more & Hmore)].
    destruct (shown w3) as [[e | u] w4] eqn:Hw4; cbn [snd] in Hmore.
    + erewrite run_try_raise.
      2:{ unfold Image_open. rewrite run_assoc, run_enter.
          erewrite run_bind by (unfold lift; rewrite Hd; reflexivity).
          emits. erewrite run_bind by exact Hp. cbv beta iota zeta.
          fold shown. exact Hw4. }
      emits. unfold emit. tidy. rewrite Hmore, Hcalls.
      exists (rest ++ more). rewrite <- app_assoc. reflexivity.
    + erewrite run_try.
      2:{ unfold Image_open. rewrite run_assoc, run_enter.
          erewrite run_bind by (unfold lift; rewrite Hd; reflexivity).
          emits. erewrite run_bind by exact Hp. cbv beta iota zeta.
          fold shown. exact Hw4. }
      tidy. rewrite Hmore, Hcalls.
      exists (rest ++ more). rewrite <- app_assoc. reflexivity.
Qed.

(** *** The model failed to load *)

Lemma load_fails_none (w : World) :
  load_fails model_file w ->
  exists rendered hp,
    load w = (inr None, {| page := page w ++ rendered; calls := calls w;
                           heap := hp; cache := Some (rendered, None) |}).
Proof.
  intros Hf. destruct (cache w) as [[rendered value] | ] eqn:Hc.
  - unfold load_fails in Hf. rewrite Hc in Hf. subst value.
    exists rendered, (heap w). rewrite (load_cached w rendered None Hc).
    rewrite Hc. reflexivity.
  - destruct (load_cold_fails w Hc Hf) as (e & hp & Hl).
    eexists _, hp. exact Hl.
Qed.

Lemma rerun_load_failed (w : World) (up : option UploadedFile) (btn : bool) :
  load_fails model_file w ->
  (exists rendered,
      page (run w up btn) = static_elements ++ rendered ++ [load_error])
  /\ calls (run w up btn) = []
  /\ load_fails model_file (run w up btn).
Proof.
  intros Hf. unfold rerun, main. emits.
  destruct (load_fails_none
              (List.fold_left (fun w e => push e w) static_elements (fresh w)))
    as (rendered & hp & Hl).
  { unfold load_fails in *. exact Hf. }
  erewrite run_bind by exact Hl.
  unfold emit. tidy. split; [ | split].
  - exists rendered. cbn [fold_left fresh push page app].
    rewrite <- app_assoc. reflexivity.
  - reflexivity.
  - unfold load_fails. cbn [cache]. reflexivity.
Qed.

Lemma session_load_failed (inputs : list (option UploadedFile * bool)) (w : World) :
  load_fails model_file w ->
  Forall (fun w' => In load_error (page w') /\ calls w' = [])
         (session luma_other resample decode model_file nep50 w inputs).
Proof.
  revert w. induction inputs as [ | [up btn] rest IH]; intros w Hf; cbn [session].
  - constructor.
  - destruct (rerun_load_failed w up btn Hf) as ((rendered & Hpage) & Hcalls & Hf').
    constructor.
    + split; [ | exact Hcalls]. rewrite Hpage.
      apply in_or_app. right. apply in_or_app. right. left. reflexivity.
    + apply IH, Hf'.
Qed.

(** A process that starts with a loadable model is ready after its first
    run. *)
Lemma boot_ready (i : Interpreter) (btn : bool) :
  model_file "pcos_detection_model.tflite" = inr i ->
  allocate_error i = None ->
  cache (run boot None btn) = Some ([], Some 0)
  /\ exists i', nth_error (heap (run boot None btn)) 0 = Some i'.
Proof.
  intros Hm Ha. unfold rerun, main. emits.
  destruct (load_cold_succeeds
              (List.fold_left (fun w e => push e w) static_elements (fresh boot)) i)
    as (hp & Hn & Hl); auto.
  erewrite run_bind by exact Hl.
  emits. unfold emit. tidy. split; [reflexivity | ].
  exists i. exact Hn.
Qed.

End ScriptFacts.

(** ** The concrete surroundings *)

Lemma astype_float32_dtype (a : ndarray) : dtype_of (astype_float32 a) = float32.
Proof. destruct a; reflexivity. Qed.

Lemma astype_float32_shape (a : ndarray) : shape_of (astype_float32 a) = shape_of a.
Proof. destruct a; reflexivity. Qed.

Lemma classifier_answers (p : spec_float) (a : ndarray) :
  dtype_of a = float32 ->
  shape_of a = [1; 224; 224; 3] ->
  answers (classifier p) a (ArrF binary32 [1; 1] [p]).
Proof.
  intros Hd Hs. unfold answers, classifier. cbn [input_details output_details tensors
                                                 bind_error forward index].
  do 5 eexists. repeat split; try reflexivity.
  rewrite Hd, Hs. reflexivity.
Qed.

Lemma classifier_rejects_gray (p : spec_float) (a : ndarray) :
  dtype_of a = float32 ->
  shape_of a = [1; 224; 224] ->
  fails_on (classifier p) a
           (Exception "ValueError: Cannot set tensor: Dimension mismatch.").
Proof.
  intros Hd Hs. unfold fails_on, classifier. cbn [input_details bind_error index].
  do 2 eexists. split; [reflexivity | ]. left. rewrite Hd, Hs. reflexivity.
Qed.

Lemma classifier_needs_float32 (p : spec_float) (idx : Z) (a : ndarray) :
  dtype_of a <> float32 -> bind_error (classifier p) idx a <> None.
Proof.
  intros Hd. unfold classifier. cbn [bind_error].
  destruct (dtype_of a); try discriminate. contradiction.
Qed.

Lemma broken_classifier_fails (a : ndarray) :
  fails_on broken_classifier a (Exception "RuntimeError: failed to invoke").
Proof.
  unfold fails_on, broken_classifier. cbn [input_details bind_error forward index].
  do 2 eexists. split; [reflexivity | ]. right. split; reflexivity.
Qed.

Lemma warm_ready (i : Interpreter) : ready (warm i) 0 i.
Proof. split; reflexivity. Qed.

Lemma colour_tensor (luma_other : string -> list byte -> list byte -> byte)
      (resample : list (list byte) -> nat * nat -> nat * nat -> nat -> nat -> byte)
      (image : Image) :
  String.eqb (mode image) "L" = false ->
  dtype_of (astype_float32 (preprocess_image luma_other resample image)) = float32
  /\ shape_of (astype_float32 (preprocess_image luma_other resample image))
     = [1; 224; 224; 3].
Proof.
  intros Hmode. rewrite astype_float32_dtype, astype_float32_shape.
  rewrite (preprocess_image_colour _ _ _ Hmode). split; reflexivity.
Qed.

(** A greyscale upload never reaches the classifier: the tensor lacks the
    channel axis the model input has, binding is refused, and the page shows
    the prediction error. *)
Lemma gray_upload_is_refused :
  page (rerun first_band NEAREST (decodes_to gray2) (model_present (classifier p02))
              true (warm (classifier p02)) (Some (upload 1024)) true)
  = static_elements ++ analysed gray2 ++
    [st_error "Error during prediction: ValueError: Cannot set tensor: Dimension mismatch."].
Proof.
  eapply (rerun_prediction_error first_band NEAREST (decodes_to gray2)
            (model_present (classifier p02)) true (warm (classifier p02)) 0
            (classifier p02) (upload 1024) gray2
            (Exception "ValueError: Cannot set tensor: Dimension mismatch.")).
  - apply warm_ready.
  - cbn. lia.
  - reflexivity.
  - apply classifier_rejects_gray.
    + apply astype_float32_dtype.
    + rewrite astype_float32_shape, (preprocess_image_gray _ _ gray2) by reflexivity.
      reflexivity.
Qed.

(** * The claims of the specification *)

Section Claims.

Variable luma_other : string -> list byte -> list byte -> byte.
Variable resample : list (list byte) -> nat * nat -> nat * nat -> nat -> nat -> byte.
Variable decode : UploadedFile -> res Image.
Variable model_file : string -> res Interpreter.
Variable nep50 : bool.

Local Abbreviation preprocess := (preprocess_image luma_other resample).
Local Abbreviation load := (load_tflite_model model_file).
Local Abbreviation run := (rerun luma_other resample decode model_file nep50).

(** C1, at the input where the code departs from it: for the 2x2 image
    [gray2], already in mode L, [preprocess_image] returns a tensor of
    shape (1,224,224), not (1,224,224,3): the replication into three
    channels sits inside the branch for the other modes. Its elements are
    in [0.0, 1.0] all the same. *)
Theorem preprocess_image_grayscale_shape :
  shape_of (preprocess gray2) = [1; 224; 224]
  /\ shape_of (preprocess gray2) <> [1; 224; 224; 3]
  /\ Forall in_unit_interval (elements (preprocess gray2)).
Proof.
  rewrite (preprocess_image_gray luma_other resample gray2) by reflexivity.
  split; [reflexivity | split; [discriminate | ]].
  rewrite <- (preprocess_image_gray luma_other resample gray2) by reflexivity.
  apply preprocess_image_range.
Qed.

(** C2: when the model output is the scalar [p] of float type [fl],
    denoting the rational [q], [predict_pcos_tflite] returns the label
    'PCOS Negative' if [q > 1/2] and 'PCOS Positive' if [q <= 1/2]; in
    particular [q = 1/2] gives 'PCOS Positive'. *)
Theorem decision_rule (h : nat) (a : ndarray) (w : World) (i : Interpreter)
        (fl : format) (p : spec_float) (q : Q) :
  nth_error (heap w) h = Some i ->
  answers i (astype_float32 a) (ArrF fl [1; 1] [p]) ->
  IEEE.valid fl p = true ->
  IEEE.to_Q p = Some q ->
  ((1 # 2 < q)%Q ->
   fst (predict_pcos_tflite h a w) = inr (Some "PCOS Negative", Some (scalar fl p)))
  /\ ((q <= 1 # 2)%Q ->
      fst (predict_pcos_tflite h a w) = inr (Some "PCOS Positive", Some (scalar fl p)))
  /\ ((q == 1 # 2)%Q ->
      fst (predict_pcos_tflite h a w) = inr (Some "PCOS Positive", Some (scalar fl p))).
Proof.
  intros Hh Ha Hv Hq.
  destruct (predict_answers h a w i fl p Hh Ha) as [hp Hp]. rewrite Hp. cbn [fst].
  assert (Hneg : (1 # 2 < q)%Q -> label_of fl p = "PCOS Negative").
  { intros Hlt. unfold label_of, SFltb. rewrite (compare_half fl p q Hv Hq).
    assert (Hc : (1 # 2 ?= q)%Q = Lt) by (apply Qlt_alt; exact Hlt).
    rewrite Hc. reflexivity. }
  assert (Hpos : (q <= 1 # 2)%Q -> label_of fl p = "PCOS Positive").
  { intros Hle. unfold label_of, SFltb. rewrite (compare_half fl p q Hv Hq).
    assert (Hc : (q ?= 1 # 2)%Q <> Gt) by (apply Qle_alt; exact Hle).
    rewrite <- Qcompare_antisym.
    destruct (q ?= 1 # 2)%Q; cbn [CompOpp]; try reflexivity.
    exfalso. apply Hc. reflexivity. }
  split; [ | split].
  - intros Hlt. rewrite (Hneg Hlt). reflexivity.
  - intros Hle. rewrite (Hpos Hle). reflexivity.
  - intros Heq. rewrite Hpos; [reflexivity | ]. apply Qle_lteq. right. exact Heq.
Qed.

(** C3: with the model output [p], the page ends with the result card
    whose confidence is [abs(p - 0.5) * 2] formatted as a percentage with
    two decimals; 0.5 is shown as 0.00%, 0.0 and 1.0 as 100.00%, 0.75 as
    50.00%. *)
Theorem confidence_displayed (w : World) (h : nat) (i : Interpreter)
        (f : UploadedFile) (image : Image) (p : spec_float) :
  ready w h i ->
  (file_size f <= 10485760)%Z ->
  decode f = inr image ->
  answers i (astype_float32 (preprocess image)) (ArrF binary32 [1; 1] [p]) ->
  let fmt := if nep50 then binary32 else binary64 in
  let shown x := format_percent2 (IEEE.convert binary64 (confidence fmt x)) in
  (exists color label,
      page (run w (Some f) true) =
      static_elements ++ analysed image ++
      [st_columns [1; 2; 1]; st_markdown (result_card color label (shown p))])
  /\ shown (IEEE.half binary32) = "0.00%"
  /\ shown (S754_zero false) = "100.00%"
  /\ shown p1 = "100.00%"
  /\ shown p075 = "50.00%".
Proof.
  intros Hr Hs Hd Ha fmt shown. split.
  - destruct (rerun_result luma_other resample decode model_file nep50
                           w h i f image p Hr Hs Hd Ha) as [Hpage _].
    do 2 eexists. exact Hpage.
  - subst shown fmt. destruct nep50; repeat split; vm_compute; reflexivity.
Qed.

(** C4, at the input where the code departs from it: the greyscale image
    [gray2] and the RGB image with the same luminance in all three
    channels do not yield the same tensor; the first has shape (1,224,224),
    the second (1,224,224,3), with the values of the first repeated along
    the last axis. *)
Theorem grayscale_equivalence_broken :
  preprocess gray2 <> preprocess (as_rgb gray2)
  /\ shape_of (preprocess gray2) = [1; 224; 224]
  /\ shape_of (preprocess (as_rgb gray2)) = [1; 224; 224; 3]
  /\ elements (preprocess (as_rgb gray2))
     = flat_map (fun v => [v; v; v]) (elements (preprocess gray2)).
Proof.
  destruct (preprocess_image_as_rgb luma_other resample gray2 eq_refl)
    as (Hg & Hc & He).
  split; [ | auto].
  intros Heq. rewrite Heq, Hc in Hg. discriminate.
Qed.

(** C5: with the model loaded, an upload of at most 10,485,760 bytes is
    decoded and no size error is shown, and when it decodes and the button
    is pressed it is preprocessed and handed to the predictor; a larger one
    gets the size error and nothing else: no decoding, preprocessing or
    inference. *)
Theorem upload_size_ceiling (w : World) (h : nat) (i : Interpreter)
        (f : UploadedFile) (btn : bool) :
  ready w h i ->
  ((file_size f <= 10485760)%Z ->
   In "Image.open" (calls (run w (Some f) btn))
   /\ ~ In size_error (page (run w (Some f) btn))
   /\ (forall image, decode f = inr image -> btn = true ->
                     In "preprocess_image" (calls (run w (Some f) btn))
                     /\ In "predict_pcos_tflite" (calls (run w (Some f) btn))))
  /\ ((file_size f > 10485760)%Z ->
      page (run w (Some f) btn) = static_elements ++ [size_error]
      /\ calls (run w (Some f) btn) = []).
Proof.
  intros Hr. split; intros Hs.
  - destruct (rerun_accepts luma_other resample decode model_file nep50
                            w h i f btn Hr Hs) as [Hopen Hquiet].
    split; [exact Hopen | split; [exact Hquiet | ]].
    intros image Hd ->.
    destruct (rerun_processes luma_other resample decode model_file nep50
                              w h i f image Hr Hs Hd) as [rest Hcalls].
    rewrite Hcalls. cbn [In]. auto.
  - apply (rerun_oversize luma_other resample decode model_file nep50 w h i f btn Hr Hs).
Qed.

(** C6: when loading fails, [load_tflite_model] returns [None] without
    raising and renders its error on the first attempt; every interaction
    from then on shows the load failure and enters neither
    [preprocess_image] nor [predict_pcos_tflite]. *)
Theorem load_failure_short_circuits (w : World) :
  load_fails model_file w ->
  (exists w', load w = (inr None, w'))
  /\ (cache w = None ->
      exists e, In (st_error ("Error loading TFLite model: " ++ str e))
                   (page (snd (load w))))
  /\ forall inputs,
      Forall (fun w' => In load_error (page w')
                        /\ ~ In "preprocess_image" (calls w')
                        /\ ~ In "predict_pcos_tflite" (calls w'))
             (session luma_other resample decode model_file nep50 w inputs).
Proof.
  intros Hf. split; [ | split].
  - destruct (load_fails_none model_file w Hf) as (rendered & hp & Hl).
    eexists. exact Hl.
  - intros Hc. destruct (load_cold_fails model_file w Hc Hf) as (e & hp & Hl).
    exists e. cbv zeta in Hl. rewrite Hl. cbn [snd page].
    apply in_or_app. right. left. reflexivity.
  - intros inputs.
    eapply Forall_impl;
      [ | apply (session_load_failed luma_other resample decode model_file nep50
                                     inputs w Hf)].
    cbn beta. intros w' [Hin Hcalls]. rewrite Hcalls. auto.
Qed.

(** C7 as the code has it: the tensor returned by [preprocess_image] is
    float64 (a uint8 array divided by a Python float), and
    [predict_pcos_tflite] converts it to float32 when it binds it. For a
    model that, like the TFLite runtime, refuses every tensor that is not
    float32, the tensor as returned would be refused; the predictor all the
    same obtains the answer the model gives to the float32 conversion, and
    returns its label. *)
Theorem preprocess_image_float64_then_cast (image : Image) (h : nat) (w : World)
        (i : Interpreter) (input0 : TensorDetails) (inputs : list TensorDetails)
        (f : format) (p : spec_float) :
  nth_error (heap w) h = Some i ->
  input_details i = input0 :: inputs ->
  (forall x, dtype_of x <> float32 -> bind_error i (index input0) x <> None) ->
  answers i (astype_float32 (preprocess image)) (ArrF f [1; 1] [p]) ->
  dtype_of (preprocess image) = float64
  /\ bind_error i (index input0) (preprocess image) <> None
  /\ dtype_of (astype_float32 (preprocess image)) = float32
  /\ bind_error i (index input0) (astype_float32 (preprocess image)) = None
  /\ fst (predict_pcos_tflite h (preprocess image) w)
     = inr (Some (label_of f p), Some (scalar f p)).
Proof.
  intros Hh Hin Hstrict Ha.
  assert (Hd : dtype_of (preprocess image) = float64) by apply preprocess_image_dtype.
  split; [exact Hd | split; [ | split; [apply astype_float32_dtype | split]]].
  - apply Hstrict. rewrite Hd. discriminate.
  - destruct Ha as (input0' & inputs' & _ & _ & _ & Hin' & _ & Hbind & _).
    rewrite Hin in Hin'. injection Hin' as <- _. exact Hbind.
  - destruct (predict_answers h _ w i f p Hh Ha) as [hp Hp]. rewrite Hp. reflexivity.
Qed.

(** C8: when binding the tensor or running the model raises [e],
    [predict_pcos_tflite] returns [(None, None)] instead of raising, the
    page shows the prediction error, and no result card is rendered. *)
Theorem prediction_error_caught (w : World) (h : nat) (i : Interpreter)
        (f : UploadedFile) (image : Image) (e : exn) :
  ready w h i ->
  (file_size f <= 10485760)%Z ->
  decode f = inr image ->
  fails_on i (astype_float32 (preprocess image)) e ->
  (forall w0, nth_error (heap w0) h = Some i ->
              fst (predict_pcos_tflite h (preprocess image) w0) = inr (None, None))
  /\ In (st_error ("Error during prediction: " ++ str e)) (page (run w (Some f) true))
  /\ forall color label text,
      ~ In (st_markdown (result_card color label text)) (page (run w (Some f) true)).
Proof.
  intros Hr Hs Hd Hf.
  destruct (rerun_prediction_error luma_other resample decode model_file nep50
                                   w h i f image e Hr Hs Hd Hf) as [Hpage _].
  split; [ | split].
  - intros w0 Hh. destruct (predict_fails h _ w0 i e Hh Hf) as [hp Hp].
    rewrite Hp. reflexivity.
  - rewrite Hpage. apply in_or_app. right. apply in_or_app. right.
    left. reflexivity.
  - intros color label text Hin. rewrite Hpage in Hin.
    unfold static_elements, analysed in Hin. cbn [app In] in Hin.
    repeat (destruct Hin as [Hin | Hin]; [discriminate | ]). exact Hin.
Qed.

(** C9: for an RGB upload, when the model answers the probability 0.2 (as
    a binary32 value) to the tensor of shape (1,224,224,3), the page ends
    with the card 'PCOS Positive', in red, confidence '60.00%'. *)
Theorem scenario_rgb_probability_02 (w : World) (h : nat) (i : Interpreter)
        (f : UploadedFile) (image : Image) :
  ready w h i ->
  (file_size f <= 10485760)%Z ->
  decode f = inr image ->
  mode image = "RGB" ->
  (forall a, dtype_of a = float32 -> shape_of a = [1; 224; 224; 3] ->
             answers i a (ArrF binary32 [1; 1] [p02])) ->
  page (run w (Some f) true) =
  static_elements ++ analysed image ++
  [st_columns [1; 2; 1];
   st_markdown (result_card "red" "PCOS Positive" "60.00%")].
Proof.
  intros Hr Hs Hd Hmode Hmodel.
  assert (Hcol : String.eqb (mode image) "L" = false) by (rewrite Hmode; reflexivity).
  destruct (colour_tensor luma_other resample image Hcol) as [Hdt Hsh].
  destruct (rerun_result luma_other resample decode model_file nep50
                         w h i f image p02 Hr Hs Hd (Hmodel _ Hdt Hsh)) as [Hpage _].
  rewrite Hpage. do 2 f_equal.
  destruct nep50; vm_compute; reflexivity.
Qed.

(** C10: [predict_pcos_tflite] never raises and has two outcomes only. When
    its guarded block runs to the end, the label is 'PCOS Negative' or
    'PCOS Positive', it comes with a probability, and nothing is rendered.
    When an exception is caught, the label and the probability are both
    [None] and the error is rendered. So the label is [None] if and only if
    the probability is. A model that answers a 1x1 tensor gives the first
    outcome; one that refuses the tensor, or whose forward pass fails, gives
    the second. *)
Theorem predict_returns_consistent_pair (h : nat) (a : ndarray) (w : World) :
  (exists w',
      (exists label probability,
          predict_pcos_tflite h a w = (inr (Some label, Some probability), w')
          /\ (label = "PCOS Negative" \/ label = "PCOS Positive")
          /\ page w' = page w)
      \/ (exists e,
          predict_pcos_tflite h a w = (inr (None, None), w')
          /\ page w' = page w ++ [st_error ("Error during prediction: " ++ str e)]))
  /\ (forall label probability,
         fst (predict_pcos_tflite h a w) = inr (label, probability) ->
         (label = None <-> probability = None))
  /\ (forall i f p,
         nth_error (heap w) h = Some i ->
         answers i (astype_float32 a) (ArrF f [1; 1] [p]) ->
         fst (predict_pcos_tflite h a w) = inr (Some (label_of f p), Some (scalar f p))
         /\ (label_of f p = "PCOS Negative" \/ label_of f p = "PCOS Positive"))
  /\ (forall i e,
         nth_error (heap w) h = Some i ->
         fails_on i (astype_float32 a) e ->
         fst (predict_pcos_tflite h a w) = inr (None, None)).
Proof.
  split; [apply predict_outcome | split; [ | split]].
  - intros label probability Hrun.
    destruct (predict_outcome h a w)
      as (w' & [(l & pr & Hp & _ & _) | (e & Hp & _)]);
      rewrite Hp in Hrun; cbn [fst] in Hrun; injection Hrun as <- <-;
      split; intros H; (discriminate || reflexivity).
  - intros i f p Hh Ha.
    destruct (predict_answers h a w i f p Hh Ha) as [hp Hp]. rewrite Hp.
    split; [reflexivity | ].
    unfold label_of. destruct (SFltb (IEEE.half f) p); auto.
  - intros i e Hh Hf.
    destruct (predict_fails h a w i e Hh Hf) as [hp Hp]. rewrite Hp. reflexivity.
Qed.

End Claims.

(** ** The claims at concrete inputs *)

(** C2 at the binary32 value nearest to 0.2, which denotes
    13421773 / 2^26 <= 1/2. *)
Lemma decision_rule_witness :
  nth_error (heap (warm (classifier p02))) 0 = Some (classifier p02)
  /\ IEEE.valid binary32 p02 = true
  /\ IEEE.to_Q p02 = Some (13421773 # 67108864)%Q
  /\ (13421773 # 67108864 <= 1 # 2)%Q
  /\ fst (predict_pcos_tflite 0 (preprocess_image first_band NEAREST rgb300)
                              (warm (classifier p02)))
     = inr (Some "PCOS Positive", Some (scalar binary32 p02)).
Proof.
  split; [reflexivity | ]. split; [reflexivity | ]. split; [reflexivity | ].
  split; [unfold Qle; cbn; lia | ].
  refine (proj1 (proj2 (decision_rule 0 _ (warm (classifier p02)) (classifier p02)
                                      binary32 p02 (13421773 # 67108864)%Q _ _ _ _)) _).
  - reflexivity.
  - apply classifier_answers; apply colour_tensor; reflexivity.
  - reflexivity.
  - reflexivity.
  - unfold Qle; cbn; lia.
Defined.

(** C3 for a model that answers 0.75 to a 300x300 RGB upload. *)
Lemma confidence_displayed_witness :
  ready (warm (classifier p075)) 0 (classifier p075)
  /\ (file_size (upload 2048) <= 10485760)%Z
  /\ exists color label,
      page (rerun first_band NEAREST (decodes_to rgb300)
                  (model_present (classifier p075)) true
                  (warm (classifier p075)) (Some (upload 2048)) true)
      = static_elements ++ analysed rgb300 ++
        [st_columns [1; 2; 1]; st_markdown (result_card color label "50.00%")].
Proof.
  split; [apply warm_ready | ]. split; [cbn; lia | ].
  refine (proj1 (confidence_displayed first_band NEAREST (decodes_to rgb300)
                   (model_present (classifier p075)) true
                   (warm (classifier p075)) 0 (classifier p075)
                   (upload 2048) rgb300 p075 _ _ _ _)).
  - apply warm_ready.
  - cbn; lia.
  - reflexivity.
  - apply classifier_answers; apply colour_tensor; reflexivity.
Defined.

(** C5 on both sides of the ceiling. *)
Lemma upload_size_ceiling_witness :
  ready (warm (classifier p02)) 0 (classifier p02)
  /\ (In "Image.open"
         (calls (rerun first_band NEAREST (decodes_to rgb300)
                       (model_present (classifier p02)) true
                       (warm (classifier p02)) (Some (upload 10485760)) true))
      /\ ~ In size_error
              (page (rerun first_band NEAREST (decodes_to rgb300)
                           (model_present (classifier p02)) true
                           (warm (classifier p02)) (Some (upload 10485760)) true))
      /\ In "predict_pcos_tflite"
            (calls (rerun first_band NEAREST (decodes_to rgb300)
                          (model_present (classifier p02)) true
                          (warm (classifier p02)) (Some (upload 10485760)) true)))
  /\ (page (rerun first_band NEAREST (decodes_to rgb300)
                  (model_present (classifier p02)) true
                  (warm (classifier p02)) (Some (upload 10485761)) true)
      = static_elements ++ [size_error]
      /\ calls (rerun first_band NEAREST (decodes_to rgb300)
                      (model_present (classifier p02)) true
                      (warm (classifier p02)) (Some (upload 10485761)) true) = []).
Proof.
  split; [apply warm_ready | ]. split.
  - destruct (proj1 (upload_size_ceiling first_band NEAREST (decodes_to rgb300)
                       (model_present (classifier p02)) true
                       (warm (classifier p02)) 0 (classifier p02)
                       (upload 10485760) true (warm_ready _)))
      as (Hopen & Hquiet & Hrun).
    + cbn; lia.
    + split; [exact Hopen | split; [exact Hquiet | ]].
      apply (Hrun rgb300); reflexivity.
  - apply (proj2 (upload_size_ceiling first_band NEAREST (decodes_to rgb300)
                    (model_present (classifier p02)) true
                    (warm (classifier p02)) 0 (classifier p02)
                    (upload 10485761) true (warm_ready _))).
    cbn; lia.
Defined.

(** C6 for a process started without the model file, over an upload with the
    button pressed and a later run without upload. *)
Lemma load_failure_short_circuits_witness :
  load_fails model_missing boot
  /\ (exists w', load_tflite_model model_missing boot = (inr None, w'))
  /\ Forall (fun w' => In load_error (page w')
                       /\ ~ In "preprocess_image" (calls w')
                       /\ ~ In "predict_pcos_tflite" (calls w'))
            (session first_band NEAREST (decodes_to rgb300) model_missing true boot
                     [(Some (upload 2048), true); (None, false)]).
Proof.
  assert (Hf : load_fails model_missing boot) by exact I.
  split; [exact Hf | ].
  pose proof (load_failure_short_circuits first_band NEAREST (decodes_to rgb300)
                model_missing true boot Hf) as (Hnone & _ & Hall).
  split; [exact Hnone | apply Hall].
Defined.

(** C8 for a classifier whose forward pass raises. *)
Lemma prediction_error_caught_witness :
  ready (warm broken_classifier) 0 broken_classifier
  /\ fails_on broken_classifier
              (astype_float32 (preprocess_image first_band NEAREST rgb300))
              (Exception "RuntimeError: failed to invoke")
  /\ In (st_error "Error during prediction: RuntimeError: failed to invoke")
        (page (rerun first_band NEAREST (decodes_to rgb300)
                     (model_present broken_classifier) true
                     (warm broken_classifier) (Some (upload 2048)) true))
  /\ forall color label text,
      ~ In (st_markdown (result_card color label text))
           (page (rerun first_band NEAREST (decodes_to rgb300)
                        (model_present broken_classifier) true
                        (warm broken_classifier) (Some (upload 2048)) true)).
Proof.
  split; [apply warm_ready | ]. split; [apply broken_classifier_fails | ].
  refine (proj2 (prediction_error_caught first_band NEAREST (decodes_to rgb300)
                   (model_present broken_classifier) true
                   (warm broken_classifier) 0 broken_classifier
                   (upload 2048) rgb300
                   (Exception "RuntimeError: failed to invoke") _ _ _ _)).
  - apply warm_ready.
  - cbn; lia.
  - reflexivity.
  - apply broken_classifier_fails.
Defined.

(** C9 on a 300x300 RGB image. *)
Lemma scenario_rgb_probability_02_witness :
  mode rgb300 = "RGB" /\ size rgb300 = (300, 300)
  /\ page (rerun first_band NEAREST (decodes_to rgb300)
                 (model_present (classifier p02)) true
                 (warm (classifier p02)) (Some (upload 270000)) true)
     = static_elements ++ analysed rgb300 ++
       [st_columns [1; 2; 1];
        st_markdown (result_card "red" "PCOS Positive" "60.00%")].
Proof.
  split; [reflexivity | ]. split; [reflexivity | ].
  apply (scenario_rgb_probability_02 first_band NEAREST (decodes_to rgb300)
           (model_present (classifier p02)) true
           (warm (classifier p02)) 0 (classifier p02) (upload 270000) rgb300).
  - apply warm_ready.
  - cbn; lia.
  - reflexivity.
  - reflexivity.
  - intros a Hd Hs. apply classifier_answers; assumption.
Defined.

(** C7 as the specification has it fails on the 300x300 RGB image. *)
Lemma preprocess_image_dtype_not_float32 :
  dtype_of (preprocess_image first_band NEAREST rgb300) <> float32.
Proof. rewrite preprocess_image_dtype. discriminate. Qed.

(** C7 as the code has it, on the 300x300 RGB image and the classifier that
    answers 0.2. *)
Lemma preprocess_image_float64_then_cast_witness :
  nth_error (heap (warm (classifier p02))) 0 = Some (classifier p02)
  /\ dtype_of (preprocess_image first_band NEAREST rgb300) = float64
  /\ bind_error (classifier p02) 0 (preprocess_image first_band NEAREST rgb300) <> None
  /\ fst (predict_pcos_tflite 0 (preprocess_image first_band NEAREST rgb300)
                              (warm (classifier p02)))
     = inr (Some "PCOS Positive", Some (scalar binary32 p02)).
Proof.
  split; [reflexivity | ].
  destruct (preprocess_image_float64_then_cast
              first_band NEAREST rgb300 0 (warm (classifier p02)) (classifier p02)
              (mkDetails 0 [1; 224; 224; 3] float32) [] binary32 p02)
    as (Hd & Hrefused & _ & _ & Hrun).
  - reflexivity.
  - reflexivity.
  - intros x. apply classifier_needs_float32.
  - apply classifier_answers; apply colour_tensor; reflexivity.
  - split; [exact Hd | split; [exact Hrefused | exact Hrun]].
Defined.

(** C10 on the classifier that answers 0.2: a label for the tensor of an RGB
    image, [(None, None)] for the tensor of a greyscale image, which it
    refuses. *)
Lemma predict_returns_consistent_pair_witness :
  fst (predict_pcos_tflite 0 (preprocess_image first_band NEAREST rgb300)
                           (warm (classifier p02)))
  = inr (Some "PCOS Positive", Some (scalar binary32 p02))
  /\ fst (predict_pcos_tflite 0 (preprocess_image first_band NEAREST gray2)
                              (warm (classifier p02)))
     = inr (None, None).
Proof.
  split.
  - refine (proj1 (proj1 (proj2 (proj2 (predict_returns_consistent_pair
              0 (preprocess_image first_band NEAREST rgb300) (warm (classifier p02)))))
              (classifier p02) binary32 p02 eq_refl _)).
    apply classifier_answers; apply colour_tensor; reflexivity.
  - refine (proj2 (proj2 (proj2 (predict_returns_consistent_pair
              0 (preprocess_image first_band NEAREST gray2) (warm (classifier p02)))))
              (classifier p02)
              (Exception "ValueError: Cannot set tensor: Dimension mismatch.")
              eq_refl _).
    apply classifier_rejects_gray.
    + apply astype_float32_dtype.
    + rewrite astype_float32_shape, (preprocess_image_gray _ _ gray2) by reflexivity.
      reflexivity.
Defined.

(** * Further properties of the code *)

(** ** The transform, beyond the greyscale branch *)

Section TransformFacts.

Variable luma_other : string -> list byte -> list byte -> byte.
Variable resample : list (list byte) -> nat * nat -> nat * nat -> nat -> nat -> byte.

Local Abbreviation preprocess := (preprocess_image luma_other resample).

Lemma gray_rgb_pixels (image : Image) :
  pixels (gray_rgb luma_other image)
  = map (map (fun px => let v := luma luma_other image px in [v; v; v]))
        (pixels image).
Proof.
  unfold gray_rgb, merge, convert_L. cbn [pixels].
  rewrite map3_diag, map_map. apply map_ext. intros row.
  rewrite map3_diag, map_map. reflexivity.
Qed.

Lemma gray_rgb_plane (image : Image) (k : nat) :
  k < 3 ->
  plane k (gray_rgb luma_other image)
  = map (map (fun px => luma luma_other image px)) (pixels image).
Proof.
  intros Hk. unfold plane. rewrite gray_rgb_pixels, map_map.
  apply map_ext. intros row. rewrite map_map. apply map_ext. intros px.
  destruct k as [ | [ | [ | k]]]; try reflexivity. lia.
Qed.

Lemma luma_gray_rgb (image : Image) (v : byte) :
  luma luma_other (gray_rgb luma_other image) [v; v; v] = v.
Proof.
  unfold luma. change (mode (gray_rgb luma_other image)) with "RGB".
  cbn [String.eqb Ascii.eqb Bool.eqb]. apply rgb2l_gray.
Qed.

(** Converting and replicating a second time changes nothing. *)
Lemma gray_rgb_idem (image : Image) :
  gray_rgb luma_other (gray_rgb luma_other image) = gray_rgb luma_other image.
Proof.
  transitivity (mkImage "RGB" (size image) []
                        (pixels (gray_rgb luma_other (gray_rgb luma_other image))));
    [reflexivity | ].
  transitivity (mkImage "RGB" (size image) [] (pixels (gray_rgb luma_other image)));
    [ | reflexivity].
  f_equal.
  rewrite (gray_rgb_pixels (gray_rgb luma_other image)).
  rewrite gray_rgb_pixels at 1. rewrite gray_rgb_pixels at 1.
  rewrite map_map. apply map_ext. intros row.
  rewrite map_map. apply map_ext. intros px.
  cbv zeta. rewrite luma_gray_rgb. reflexivity.
Qed.

(** The resized image of the colour branch: one resampled plane, each
    sample three times. *)
Lemma resize_gray_rgb (image : Image) (target_size : nat * nat) :
  pixels (resize resample (gray_rgb luma_other image) target_size)
  = map (map (fun v => [v; v; v]))
        (map (fun y =>
                map (fun x =>
                       resample (map (map (fun px => luma luma_other image px))
                                     (pixels image))
                                (size image) target_size x y)
                    (seq 0 (fst target_size)))
             (seq 0 (snd target_size))).
Proof.
  unfold resize. cbn [pixels].
  change (mode (gray_rgb luma_other image)) with "RGB".
  change (size (gray_rgb luma_other image)) with (size image).
  change (bands "RGB") with 3. change (seq 0 3) with [0; 1; 2].
  rewrite map_map. apply map_ext. intros y.
  rewrite map_map. apply map_ext. intros x.
  cbn [map]. rewrite !gray_rgb_plane by lia. reflexivity.
Qed.

Lemma not_gray (image : Image) :
  mode image <> "L" -> String.eqb (mode image) "L" = false.
Proof. intros H. apply String.eqb_neq. exact H. Qed.

(** X1: for an image of any mode other than L, of any size,
    [preprocess_image] returns a float64 tensor of shape (1,224,224,3) whose
    data fill that shape. *)
Theorem colour_branch_tensor (image : Image) :
  mode image <> "L" ->
  shape_of (preprocess image) = [1; 224; 224; 3]
  /\ dtype_of (preprocess image) = float64
  /\ size_of (preprocess image) = 224 * 224 * 3.
Proof.
  intros Hmode. apply not_gray in Hmode.
  assert (Hshape : shape_of (preprocess image) = [1; 224; 224; 3])
    by (rewrite (preprocess_image_colour _ _ _ Hmode); reflexivity).
  split; [exact Hshape | split; [apply preprocess_image_dtype | ]].
  rewrite preprocess_image_size, Hshape.
  unfold product. cbn [fold_right]. lia.
Qed.

(** X2: whatever the mode and the size of the image, the elements of the
    tensor [preprocess_image] returns are uint8 samples, one for each
    position of the tensor, each divided by 255.0 in float64; every one of
    them lies in [0.0, 1.0], the sample 0 giving exactly 0.0 and the sample
    255 exactly 1.0. *)
Theorem every_element_in_unit_interval (image : Image) :
  (exists samples : list byte,
      List.length samples = product (shape_of (preprocess image))
      /\ elements (preprocess image)
         = map (fun b => IEEE.div binary64 (float_of_byte binary64 b)
                                  (IEEE.of_Z binary64 255))
               samples)
  /\ Forall in_unit_interval (elements (preprocess image))
  /\ IEEE.div binary64 (float_of_byte binary64 x00) (IEEE.of_Z binary64 255)
     = IEEE.zero
  /\ IEEE.div binary64 (float_of_byte binary64 xff) (IEEE.of_Z binary64 255)
     = IEEE.one binary64.
Proof.
  split; [ | split; [ | split; vm_compute; reflexivity]].
  - pose proof (preprocess_image_size luma_other resample image) as Hsize.
    destruct (String.eqb (mode image) "L") eqn:Hmode.
    + apply String.eqb_eq in Hmode.
      rewrite (preprocess_image_gray _ _ _ Hmode) in *.
      cbn [elements size_of shape_of] in *.
      eexists. split; [ | reflexivity].
      rewrite <- Hsize, length_map. reflexivity.
    + rewrite (preprocess_image_colour _ _ _ Hmode) in *.
      cbn [elements size_of shape_of] in *.
      eexists. split; [ | reflexivity].
      rewrite <- Hsize, length_map. reflexivity.
  - destruct (String.eqb (mode image) "L") eqn:Hmode.
    + apply String.eqb_eq in Hmode.
      rewrite (preprocess_image_gray _ _ _ Hmode). cbn [elements].
      apply Forall_map_const, byte_over_255_in_unit_interval.
    + rewrite (preprocess_image_colour _ _ _ Hmode). cbn [elements].
      apply Forall_map_const, byte_over_255_in_unit_interval.
Qed.

(** X3: for every image in mode L, the tensor of its RGB equivalent holds
    the values of the tensor of the image itself, each three times in a
    row: the two differ by the channel axis only. *)
Theorem grayscale_values_repeated (g : Image) :
  mode g = "L" ->
  shape_of (preprocess (as_rgb g)) = shape_of (preprocess g) ++ [3]
  /\ elements (preprocess (as_rgb g))
     = flat_map (fun v => [v; v; v]) (elements (preprocess g)).
Proof.
  intros Hmode.
  destruct (preprocess_image_as_rgb luma_other resample g Hmode) as (Hg & Hc & He).
  split; [rewrite Hg, Hc; reflexivity | exact He].
Qed.

(** X4: conversion to greyscale followed by replication is idempotent: for
    an image of a mode other than L, preprocessing the converted and
    replicated image gives the tensor of the image itself. *)
Theorem conversion_is_idempotent (image : Image) :
  mode image <> "L" ->
  preprocess (gray_rgb luma_other image) = preprocess image.
Proof.
  intros Hmode. apply not_gray in Hmode.
  rewrite (preprocess_image_colour _ _ (gray_rgb luma_other image)) by reflexivity.
  rewrite (preprocess_image_colour _ _ image Hmode).
  pose proof (gray_rgb_idem image) as Hidem.
  unfold gray_rgb in Hidem. unfold gray_rgb. rewrite Hidem. reflexivity.
Qed.

(** X5: for an image of a mode other than L the three channels of the
    tensor are equal at every position: the data are 224 * 224 values, each
    three times in a row. No colour reaches the model. *)
Theorem channels_are_equal (image : Image) :
  mode image <> "L" ->
  exists values,
    List.length values = 224 * 224
    /\ elements (preprocess image) = flat_map (fun v => [v; v; v]) values.
Proof.
  intros Hmode. apply not_gray in Hmode.
  rewrite (preprocess_image_colour _ _ image Hmode). cbn [elements].
  pose proof (resize_gray_rgb image (224, 224)) as Hresize.
  unfold gray_rgb in Hresize. rewrite Hresize.
  rewrite concat_triples, map_triples.
  eexists. split; [ | reflexivity].
  rewrite length_map, (length_concat_uniform 224).
  - rewrite length_map, length_seq. reflexivity.
  - apply Forall_map_const. intros y. rewrite length_map, length_seq. reflexivity.
Qed.

End TransformFacts.

(** ** What outlives a run *)

Lemma same_model_refl (i : Interpreter) : same_model i i.
Proof. repeat split. Qed.

Lemma same_model_trans (i1 i2 i3 : Interpreter) :
  same_model i1 i2 -> same_model i2 i3 -> same_model i1 i3.
Proof.
  intros (A1 & B1 & C1 & D1 & E1) (A2 & B2 & C2 & D2 & E2).
  repeat split; etransitivity; eassumption.
Qed.

Lemma same_model_with_tensors (i : Interpreter) (t : list (Z * ndarray)) :
  same_model i (with_tensors i t).
Proof. repeat split. Qed.

Lemma preserved_refl (w : World) : preserved w w.
Proof.
  split; [reflexivity | split; [reflexivity | ]].
  intros h i H. exists i. split; [exact H | apply same_model_refl].
Qed.

Lemma preserved_trans (w1 w2 w3 : World) :
  preserved w1 w2 -> preserved w2 w3 -> preserved w1 w3.
Proof.
  intros (C1 & L1 & H1) (C2 & L2 & H2).
  split; [congruence | split; [congruence | ]].
  intros h i Hi. destruct (H1 h i Hi) as (i2 & Hi2 & S12).
  destruct (H2 h i2 Hi2) as (i3 & Hi3 & S23).
  exists i3. split; [exact Hi3 | eapply same_model_trans; eassumption].
Qed.

Lemma length_update {A} (n : nat) (x : A) (l : list A) :
  List.length (update n x l) = List.length l.
Proof.
  revert n. induction l as [ | y l IH]; intros [ | n]; cbn; auto.
Qed.

Lemma nth_error_update_other {A} (l : list A) (n m : nat) (x : A) :
  n <> m -> nth_error (update n x l) m = nth_error l m.
Proof.
  revert n m. induction l as [ | y l IH]; intros [ | n] [ | m] H; cbn;
    try reflexivity; try contradiction.
  apply IH. congruence.
Qed.

Lemma keeps_ret {A} (x : A) : keeps (ret x).
Proof. intros w. apply preserved_refl. Qed.

Lemma keeps_raise {A} (e : exn) : keeps (@raise A e).
Proof. intros w. apply preserved_refl. Qed.

Lemma keeps_lift {A} (r : res A) : keeps (lift r).
Proof. intros w. apply preserved_refl. Qed.

Lemma keeps_emit (e : element) : keeps (emit e).
Proof. intros w. apply (preserved_refl w). Qed.

Lemma keeps_enter (f : string) : keeps (enter f).
Proof. intros w. apply (preserved_refl w). Qed.

Lemma keeps_bind {A B} (m : M A) (k : A -> M B) :
  keeps m -> (forall x, keeps (k x)) -> keeps (bind m k).
Proof.
  intros Hm Hk w. unfold bind. specialize (Hm w).
  destruct (m w) as [[e | x] w']; cbn [snd] in *; [exact Hm | ].
  eapply preserved_trans; [exact Hm | apply Hk].
Qed.

Lemma keeps_try {A} (m : M A) (handler : exn -> M A) :
  keeps m -> (forall e, keeps (handler e)) -> keeps (try_except m handler).
Proof.
  intros Hm Hh w. unfold try_except. specialize (Hm w).
  destruct (m w) as [[e | x] w']; cbn [snd] in *; [ | exact Hm].
  eapply preserved_trans; [exact Hm | apply Hh].
Qed.

(** A method that leaves the model of its object alone keeps the process
    state. *)
Lemma keeps_method {A} (h : nat) (op : Interpreter -> res (Interpreter * A)) :
  (forall i i' x, op i = inr (i', x) -> same_model i i') ->
  keeps (method h op).
Proof.
  intros Hop w. unfold method.
  destruct (nth_error (heap w) h) as [i | ] eqn:Hh; [ | apply preserved_refl].
  destruct (op i) as [e | [i' x]] eqn:Hi; [apply preserved_refl | ].
  cbn [snd]. split; [reflexivity | split; [apply length_update | ]].
  cbn [heap]. intros h0 i0 H0.
  destruct (Nat.eq_dec h h0) as [<- | Hne].
  - exists i'. split; [eapply nth_error_update, Hh | ].
    rewrite Hh in H0. injection H0 as <-. eapply Hop, Hi.
  - exists i0. rewrite (nth_error_update_other _ _ _ _ Hne).
    split; [exact H0 | apply same_model_refl].
Qed.

Lemma keeps_allocate_tensors (h : nat) : keeps (allocate_tensors h).
Proof.
  apply keeps_method. intros i i' x H.
  destruct (allocate_error i); [discriminate | ].
  injection H as <- _. apply same_model_refl.
Qed.

Lemma keeps_get_input_details (h : nat) : keeps (get_input_details h).
Proof.
  apply keeps_method. intros i i' x H. injection H as <- _. apply same_model_refl.
Qed.

Lemma keeps_get_output_details (h : nat) : keeps (get_output_details h).
Proof.
  apply keeps_method. intros i i' x H. injection H as <- _. apply same_model_refl.
Qed.

Lemma keeps_set_tensor (h : nat) (idx : Z) (value : ndarray) :
  keeps (set_tensor h idx value).
Proof.
  apply keeps_method. intros i i' x H.
  destruct (bind_error i idx value); [discriminate | ].
  injection H as <- _. apply same_model_with_tensors.
Qed.

Lemma keeps_invoke (h : nat) : keeps (invoke h).
Proof.
  apply keeps_method. intros i i' x H.
  destruct (forward i (tensors i)); [discriminate | ].
  injection H as <- _. apply same_model_with_tensors.
Qed.

Lemma keeps_get_tensor (h : nat) (idx : Z) : keeps (get_tensor h idx).
Proof.
  apply keeps_method. intros i i' x H.
  destruct (lookup idx (tensors i)); [ | discriminate].
  injection H as <- _. apply same_model_refl.
Qed.

Lemma keeps_first {A} (l : list A) : keeps (first l).
Proof. destruct l; [apply keeps_raise | apply keeps_ret]. Qed.

Lemma keeps_item0 (a : ndarray) : keeps (item0 a).
Proof. unfold item0. destruct (getitem0 a); [apply keeps_ret | apply keeps_raise]. Qed.

Create HintDb keeps discriminated.
#[local] Hint Resolve keeps_ret keeps_raise keeps_lift keeps_emit keeps_enter
  keeps_allocate_tensors keeps_get_input_details keeps_get_output_details
  keeps_set_tensor keeps_invoke keeps_get_tensor keeps_first keeps_item0 : keeps.

Lemma keeps_predict (h : nat) (a : ndarray) : keeps (predict_pcos_tflite h a).
Proof.
  unfold predict_pcos_tflite.
  apply keeps_bind; [auto with keeps | intros _].
  apply keeps_try.
  - repeat (apply keeps_bind; [auto with keeps | intros ?]). auto with keeps.
  - intros e. apply keeps_bind; auto with keeps.
Qed.

Lemma keeps_render_result (nep50 : bool) (result : option string)
      (probability : option ndarray) :
  keeps (render_result nep50 result probability).
Proof.
  unfold render_result. destruct (truthy result); [ | auto with keeps].
  destruct result as [label | ]; [ | auto with keeps].
  apply keeps_bind; [auto with keeps | intros _].
  destruct probability as [p | ]; [ | auto with keeps].
  apply keeps_bind; auto with keeps.
Qed.

(** The script after the model check keeps the process state. *)
Ltac keeps_script :=
  repeat first
    [ progress auto with keeps
    | apply keeps_predict
    | apply keeps_render_result
    | apply keeps_try
    | apply keeps_bind
    | intros ? ].

Section ScriptInvariants.

Variable luma_other : string -> list byte -> list byte -> byte.
Variable resample : list (list byte) -> nat * nat -> nat * nat -> nat -> nat -> byte.
Variable decode : UploadedFile -> res Image.
Variable model_file : string -> res Interpreter.
Variable nep50 : bool.

Local Abbreviation preprocess := (preprocess_image luma_other resample).
Local Abbreviation load := (load_tflite_model model_file).
Local Abbreviation run := (rerun luma_other resample decode model_file nep50).

Lemma keeps_Image_open (f : UploadedFile) : keeps (Image_open decode f).
Proof. unfold Image_open. keeps_script. Qed.

(** With the model loaded, a run changes neither the cache nor the number
    of interpreter objects nor the model behind a handle. *)
Lemma rerun_preserved (w : World) (h : nat)
      (up : option UploadedFile) (btn : bool) :
  cache w = Some ([], Some h) ->
  preserved w (run w up btn).
Proof.
  intros Hc. unfold rerun, main. emits.
  erewrite run_bind by (apply (started_ready model_file w h Hc)).
  destruct up as [f | ]; [destruct (file_size f >? 10 * 1024 * 1024)%Z | ];
    match goal with
    | |- preserved w (snd (?T (started w))) =>
        assert (HT : keeps T); [ | exact (HT (started w))]
    end.
  - keeps_script.
  - apply keeps_try.
    + apply keeps_bind; [apply keeps_Image_open | intros image].
      repeat (apply keeps_bind; [auto with keeps | intros _]).
      destruct btn; [ | auto with keeps].
      repeat (apply keeps_bind; [auto with keeps | intros _]).
      apply keeps_bind; [apply keeps_predict | intros [result probability]].
      apply keeps_render_result.
    + intros e. keeps_script.
  - keeps_script.
Qed.

Lemma load_boot (i : Interpreter) :
  model_file "pcos_detection_model.tflite" = inr i ->
  allocate_error i = None ->
  load (List.fold_left (fun w e => push e w) static_elements (fresh boot))
  = (inr (Some 0),
     {| page := static_elements; calls := []; heap := [i];
        cache := Some ([], Some 0) |}).
Proof.
  intros Hm Ha. unfold load_tflite_model, cache_resource.
  cbn [fold_left static_elements fresh boot push cache page calls heap app].
  unfold try_except, bind, Interpreter_new. rewrite Hm.
  cbn [page calls heap cache app List.length].
  unfold allocate_tensors, method. cbn [heap nth_error]. rewrite Ha.
  reflexivity.
Qed.

Lemma rerun_boot (i : Interpreter) (up : option UploadedFile) (btn : bool) :
  model_file "pcos_detection_model.tflite" = inr i ->
  allocate_error i = None ->
  loaded_once i (run boot up btn).
Proof.
  intros Hm Ha. unfold rerun, main. emits.
  erewrite run_bind by (apply (load_boot i Hm Ha)).
  set (w1 := {| page := static_elements; calls := []; heap := [i];
                cache := Some ([], Some 0) |}).
  assert (Hkeep : forall T : M unit, keeps T -> loaded_once i (snd (T w1))).
  { intros T HT. destruct (HT w1) as (Hc & Hl & Hh).
    destruct (Hh 0 i eq_refl) as (i' & Hi' & Hs).
    split; [exact Hc | split; [exact Hl | ]]. exists i'. auto. }
  destruct up as [f | ]; [destruct (file_size f >? 10 * 1024 * 1024)%Z | ];
    apply Hkeep.
  - keeps_script.
  - apply keeps_try.
    + apply keeps_bind; [apply keeps_Image_open | intros image].
      repeat (apply keeps_bind; [auto with keeps | intros _]).
      destruct btn; [ | auto with keeps].
      repeat (apply keeps_bind; [auto with keeps | intros _]).
      apply keeps_bind; [apply keeps_predict | intros [result probability]].
      apply keeps_render_result.
    + intros e. keeps_script.
  - keeps_script.
Qed.

Lemma rerun_loaded_once (i : Interpreter) (w : World)
      (up : option UploadedFile) (btn : bool) :
  loaded_once i w -> loaded_once i (run w up btn).
Proof.
  intros (Hc & Hl & i1 & Hi1 & Hs1).
  destruct (rerun_preserved w 0 up btn Hc) as (Hc' & Hl' & Hh).
  destruct (Hh 0 i1 Hi1) as (i2 & Hi2 & Hs2).
  split; [congruence | split; [congruence | ]].
  exists i2. split; [exact Hi2 | eapply same_model_trans; eassumption].
Qed.

Lemma session_loaded_once (i : Interpreter)
      (inputs : list (option UploadedFile * bool)) (w : World) :
  loaded_once i w ->
  Forall (loaded_once i)
         (session luma_other resample decode model_file nep50 w inputs).
Proof.
  revert w. induction inputs as [ | [up btn] rest IH]; intros w Hw; cbn [session].
  - constructor.
  - constructor; [ | apply IH]; apply rerun_loaded_once, Hw.
Qed.

End ScriptInvariants.

(** ** The predictor on a malformed model *)

Lemma predict_no_input (h : nat) (a : ndarray) (w : World) (i : Interpreter) :
  nth_error (heap w) h = Some i ->
  input_details i = [] ->
  exists hp msg,
    predict_pcos_tflite h a w =
    (inr (None, None),
     {| page := page w ++ [st_error ("Error during prediction: " ++ msg)];
        calls := calls w ++ ["predict_pcos_tflite"];
        heap := hp; cache := cache w |}).
Proof.
  intros Hh Hin. destruct w as [pg cl hp ca]. cbn [heap] in Hh.
  unfold predict_pcos_tflite, get_input_details, get_output_details.
  unfold bind at 1. unfold enter, log. cbn [page calls heap cache].
  unfold try_except, bind.
  rewrite (method_run _ _ _ i) by exact Hh. cbn [page calls heap cache].
  rewrite (method_run _ _ _ i) by (cbn [heap]; eapply nth_error_update, Hh).
  cbn [page calls heap cache]. rewrite Hin. cbn [first raise].
  unfold emit, push, ret. cbn [page calls heap cache].
  eexists _, _. reflexivity.
Qed.

Lemma predict_low_rank (h : nat) (a : ndarray) (w : World) (i : Interpreter)
      (prediction : ndarray) :
  nth_error (heap w) h = Some i ->
  answers i (astype_float32 a) prediction ->
  (shape_of prediction = [] \/ exists n, shape_of prediction = [n]) ->
  exists hp msg,
    predict_pcos_tflite h a w =
    (inr (None, None),
     {| page := page w ++ [st_error ("Error during prediction: " ++ msg)];
        calls := calls w ++ ["predict_pcos_tflite"];
        heap := hp; cache := cache w |}).
Proof.
  intros Hh (input0 & inputs & output0 & outputs & t & Hin & Hout & Hbind & Hfwd & Hget)
         Hrank.
  destruct w as [pg cl hp ca]. cbn [heap] in Hh.
  unfold predict_pcos_tflite, get_input_details, get_output_details,
    set_tensor, invoke, get_tensor.
  unfold bind at 1. unfold enter, log. cbn [page calls heap cache].
  unfold try_except, bind.
  rewrite (method_run _ _ _ i) by exact Hh. cbn [page calls heap cache].
  rewrite (method_run _ _ _ i) by (cbn [heap]; eapply nth_error_update, Hh).
  cbn [page calls heap cache]. rewrite Hin. cbn [first ret].
  rewrite (method_run _ _ _ i) by
      (cbn [heap]; eapply nth_error_update, nth_error_update, Hh).
  rewrite Hbind. cbn [page calls heap cache].
  erewrite method_run by
      (cbn [heap]; eapply nth_error_update, nth_error_update, nth_error_update, Hh).
  cbn [tensors with_tensors forward]. rewrite Hfwd. cbn [page calls heap cache].
  rewrite Hout. cbn [first ret].
  erewrite method_run by
      (cbn [heap]; do 4 eapply nth_error_update; exact Hh).
  cbn [tensors with_tensors]. rewrite Hget. cbn [page calls heap cache].
  destruct prediction as [sh d | fl sh d]; cbn [shape_of] in Hrank;
    destruct Hrank as [-> | [[ | n] ->]];
    cbn [item0 getitem0 ret raise];
    unfold emit, push, ret; cbn [page calls heap cache];
    eexists _, _; reflexivity.
Qed.

(** X15: a model that declares no input, or whose output tensor has fewer
    than two dimensions, does not crash the predictor: the IndexError is
    caught, [(None, None)] is returned and one error element is rendered. *)
Theorem malformed_model_fails_gracefully (h : nat) (a : ndarray) (w : World)
        (i : Interpreter) :
  nth_error (heap w) h = Some i ->
  (input_details i = []
   \/ exists prediction,
       answers i (astype_float32 a) prediction
       /\ (shape_of prediction = [] \/ exists n, shape_of prediction = [n])) ->
  fst (predict_pcos_tflite h a w) = inr (None, None)
  /\ exists msg,
      page (snd (predict_pcos_tflite h a w))
      = page w ++ [st_error ("Error during prediction: " ++ msg)].
Proof.
  intros Hh [Hin | (prediction & Ha & Hrank)].
  - destruct (predict_no_input h a w i Hh Hin) as (hp & msg & Hp).
    rewrite Hp. split; [reflexivity | exists msg; reflexivity].
  - destruct (predict_low_rank h a w i prediction Hh Ha Hrank) as (hp & msg & Hp).
    rewrite Hp. split; [reflexivity | exists msg; reflexivity].
Qed.

(** ** The script, path by path *)

Lemma label_of_order (f : format) (p : spec_float) (q : Q) :
  IEEE.valid f p = true ->
  IEEE.to_Q p = Some q ->
  ((1 # 2 < q)%Q -> label_of f p = "PCOS Negative")
  /\ ((q <= 1 # 2)%Q -> label_of f p = "PCOS Positive").
Proof.
  intros Hv Hq. unfold label_of, SFltb. rewrite (compare_half f p q Hv Hq). split.
  - intros Hlt. assert (Hc : (1 # 2 ?= q)%Q = Lt) by (apply Qlt_alt; exact Hlt).
    rewrite Hc. reflexivity.
  - intros Hle. assert (Hc : (q ?= 1 # 2)%Q <> Gt) by (apply Qle_alt; exact Hle).
    rewrite <- Qcompare_antisym.
    destruct (q ?= 1 # 2)%Q; cbn [CompOpp]; try reflexivity.
    exfalso. apply Hc. reflexivity.
Qed.

Section ScriptPaths.

Variable luma_other : string -> list byte -> list byte -> byte.
Variable resample : list (list byte) -> nat * nat -> nat * nat -> nat -> nat -> byte.
Variable decode : UploadedFile -> res Image.
Variable model_file : string -> res Interpreter.
Variable nep50 : bool.

Local Abbreviation preprocess := (preprocess_image luma_other resample).
Local Abbreviation load := (load_tflite_model model_file).
Local Abbreviation run := (rerun luma_other resample decode model_file nep50).

Lemma renders_load : renders (fun _ => True) load.
Proof.
  intros w. unfold load_tflite_model, cache_resource.
  destruct (cache w) as [[rendered value] | ].
  - unfold bind. rewrite replay_run. cbn [snd ret page calls]. split.
    + exists rendered. split; [reflexivity | ].
      apply Forall_forall. intros; exact I.
    + exists []. rewrite app_nil_r. reflexivity.
  - match goal with
    | |- context [let '(r, w') := ?body ?w0 in _] =>
        assert (Hbody : renders (fun _ => True) body); [ | specialize (Hbody w0);
          destruct (body w0) as [r w'] ]
    end.
    { apply renders_try.
      - apply renders_bind.
        + intros w0. unfold Interpreter_new.
          destruct (model_file _); [apply grows_refl | ].
          split; exists []; cbn; rewrite app_nil_r; auto.
        + intros h. apply renders_bind; [apply renders_method | auto with renders].
      - intros e. apply renders_bind; [apply renders_emit; exact I | auto with renders]. }
    cbn [snd page calls] in *. destruct Hbody as [_ (logged & Hlog)]. split.
    + exists (page w'). split; [reflexivity | ].
      apply Forall_forall. intros; exact I.
    + exists logged. exact Hlog.
Qed.

(** X10: whatever the state of the process, the upload and the button, a
    run first renders the sidebar with its warning and disclaimer and the
    title, before the model is even looked up. *)
Theorem static_elements_always_first (w : World) (up : option UploadedFile)
        (btn : bool) :
  exists rest, page (run w up btn) = static_elements ++ rest.
Proof.
  unfold rerun, main. emits.
  match goal with
  | |- context [snd (?T ?w0)] =>
      assert (HT : renders (fun _ => True) T);
        [ | destruct (HT w0) as [(rest & Hrest & _) _]; exists rest; exact Hrest ]
  end.
  apply renders_bind; [apply renders_load | intros [h | ]].
  - destruct up as [f | ]; [destruct (file_size f >? 10 * 1024 * 1024)%Z | ].
    + apply renders_emit. exact I.
    + apply renders_try.
      * apply renders_bind.
        { unfold Image_open. apply renders_bind; auto with renders. }
        intros image.
        repeat (apply renders_bind; [apply renders_emit; exact I | intros _]).
        destruct btn; [ | auto with renders].
        apply renders_bind; [apply renders_emit; exact I | intros _].
        apply renders_bind; [auto with renders | intros _].
        apply renders_bind; [apply renders_predict; intros; exact I | ].
        intros [result probability]. apply renders_render_result. auto.
      * intros e. apply renders_bind; [apply renders_emit; exact I | intros _].
        apply renders_emit. exact I.
    + apply renders_bind; [apply renders_emit; exact I | intros _].
      apply renders_emit. exact I.
  - apply renders_emit. exact I.
Qed.

(** X6: with the model loaded and no upload, the run shows the prompt to
    upload an image and enters no function, whether or not the button is
    pressed. *)
Theorem no_upload_shows_placeholder (w : World) (h : nat) (i : Interpreter)
        (btn : bool) :
  ready w h i ->
  page (run w None btn)
  = static_elements ++ [st_columns [1; 2; 1]; st_markdown placeholder]
  /\ calls (run w None btn) = [].
Proof.
  intros Hr.
  apply (rerun_no_upload luma_other resample decode model_file nep50 w h i btn Hr).
Qed.

(** X7: an upload within the size limit that Pillow cannot decode is
    reported with the decoder's message and a hint; the image is not shown,
    nothing is preprocessed or predicted, whether or not the button is
    pressed. *)
Theorem undecodable_upload_reported (w : World) (h : nat) (i : Interpreter)
        (f : UploadedFile) (btn : bool) (e : exn) :
  ready w h i ->
  (file_size f <= 10485760)%Z ->
  decode f = inl e ->
  page (run w (Some f) btn)
  = static_elements ++
    [st_error ("Error processing image: " ++ str e);
     st_write "Please ensure you've uploaded a valid image file."]
  /\ calls (run w (Some f) btn) = ["Image.open"].
Proof.
  intros Hr Hs Hd.
  apply (rerun_undecodable luma_other resample decode model_file nep50
                           w h i f btn e Hr Hs Hd).
Qed.

(** X8: a decodable upload is shown, and nothing more happens until the
    button is pressed: no preprocessing, no inference, no result. *)
Theorem nothing_analysed_until_button (w : World) (h : nat) (i : Interpreter)
        (f : UploadedFile) (image : Image) :
  ready w h i ->
  (file_size f <= 10485760)%Z ->
  decode f = inr image ->
  page (run w (Some f) false)
  = static_elements ++
    [st_columns [1; 2; 1]; st_markdown image_container_open;
     st_image image "Uploaded Image"; st_markdown image_container_close]
  /\ calls (run w (Some f) false) = ["Image.open"].
Proof.
  intros Hr Hs Hd.
  apply (rerun_idle luma_other resample decode model_file nep50 w h i f image Hr Hs Hd).
Qed.

(** X9: the colour of the result card follows the label: a float32
    probability above one half gives a green 'PCOS Negative' card, one at or
    below one half a red 'PCOS Positive' card. *)
Theorem card_colour_follows_label (w : World) (h : nat) (i : Interpreter)
        (f : UploadedFile) (image : Image) (p : spec_float) (q : Q) :
  ready w h i ->
  (file_size f <= 10485760)%Z ->
  decode f = inr image ->
  answers i (astype_float32 (preprocess image)) (ArrF binary32 [1; 1] [p]) ->
  IEEE.valid binary32 p = true ->
  IEEE.to_Q p = Some q ->
  exists text,
    ((1 # 2 < q)%Q ->
     page (run w (Some f) true)
     = static_elements ++ analysed image ++
       [st_columns [1; 2; 1];
        st_markdown (result_card "green" "PCOS Negative" text)])
    /\ ((q <= 1 # 2)%Q ->
        page (run w (Some f) true)
        = static_elements ++ analysed image ++
          [st_columns [1; 2; 1];
           st_markdown (result_card "red" "PCOS Positive" text)]).
Proof.
  intros Hr Hs Hd Ha Hv Hq.
  destruct (rerun_result luma_other resample decode model_file nep50
                         w h i f image p Hr Hs Hd Ha) as [Hpage _].
  destruct (label_of_order binary32 p q Hv Hq) as [Hneg Hpos].
  eexists. split; intros Hcmp; rewrite Hpage.
  - rewrite (Hneg Hcmp). reflexivity.
  - rewrite (Hpos Hcmp). reflexivity.
Qed.

(** X11: with the model loaded, any interaction, also one that ends in an
    error, leaves the model ready behind the same handle, with the same
    details, checks and forward pass, and loads nothing anew. *)
Theorem interaction_keeps_model_ready (w : World) (h : nat) (i : Interpreter)
        (up : option UploadedFile) (btn : bool) :
  ready w h i ->
  exists i',
    ready (run w up btn) h i'
    /\ same_model i i'
    /\ List.length (heap (run w up btn)) = List.length (heap w).
Proof.
  intros [Hc Hh].
  destruct (rerun_preserved luma_other resample decode model_file nep50
                            w h up btn Hc) as (Hc' & Hl & Hk).
  destruct (Hk h i Hh) as (i' & Hi' & Hs).
  exists i'. split; [split; [congruence | exact Hi'] | auto].
Qed.

(** X12: when the model file loads, a process loads it once: after every
    interaction of a session started from scratch the cache holds the first
    handle, the heap holds that single interpreter, and its model is the
    one loaded. *)
Theorem model_loaded_once (i : Interpreter)
        (inputs : list (option UploadedFile * bool)) :
  model_file "pcos_detection_model.tflite" = inr i ->
  allocate_error i = None ->
  Forall (loaded_once i)
         (session luma_other resample decode model_file nep50 boot inputs).
Proof.
  intros Hm Ha. destruct inputs as [ | [up btn] rest]; cbn [session].
  - constructor.
  - assert (H1 : loaded_once i (run boot up btn))
      by (apply (rerun_boot luma_other resample decode model_file nep50 i up btn Hm Ha)).
    constructor; [exact H1 | ].
    apply (session_loaded_once luma_other resample decode model_file nep50 i rest _ H1).
Qed.

Lemma rerun_load_failed_cache (w : World) (up : option UploadedFile) (btn : bool) :
  load_fails model_file w ->
  exists rendered, cache (run w up btn) = Some (rendered, None).
Proof.
  intros Hf. unfold rerun, main. emits.
  destruct (load_fails_none model_file
              (List.fold_left (fun w e => push e w) static_elements (fresh w)))
    as (rendered & hp & Hl).
  { unfold load_fails in *. exact Hf. }
  erewrite run_bind by exact Hl.
  unfold emit. tidy. exists rendered. reflexivity.
Qed.

(** X14: an upload in mode L never gets a result from a model that accepts
    only tensors of shape (1,224,224,3): binding raises, and the page ends
    with the prediction error instead of a card. *)
Theorem grayscale_upload_gets_prediction_error
        (w : World) (h : nat) (i : Interpreter) (f : UploadedFile) (image : Image)
        (input0 : TensorDetails) (inputs : list TensorDetails) :
  ready w h i ->
  (file_size f <= 10485760)%Z ->
  decode f = inr image ->
  mode image = "L" ->
  input_details i = input0 :: inputs ->
  (forall a, shape_of a <> [1; 224; 224; 3] -> bind_error i (index input0) a <> None) ->
  exists e,
    page (run w (Some f) true)
    = static_elements ++ analysed image ++
      [st_error ("Error during prediction: " ++ str e)].
Proof.
  intros Hr Hs Hd Hmode Hin Hstrict.
  destruct (bind_error i (index input0) (astype_float32 (preprocess image)))
    as [e | ] eqn:Hbind.
  - exists e.
    apply (rerun_prediction_error luma_other resample decode model_file nep50
                                  w h i f image e Hr Hs Hd).
    exists input0, inputs. split; [exact Hin | left; exact Hbind].
  - exfalso. apply (Hstrict (astype_float32 (preprocess image))); [ | exact Hbind].
    rewrite astype_float32_shape, (preprocess_image_gray _ _ _ Hmode).
    discriminate.
Qed.

End ScriptPaths.

(** X13: a failed load is remembered. Once an interaction has run without
    the model, every later interaction reports the load failure and enters
    no function, even when the model file has become loadable in the
    meantime: the cached [None] is returned without a new attempt. *)
Theorem failed_load_is_sticky
        (luma_other : string -> list byte -> list byte -> byte)
        (resample : list (list byte) -> nat * nat -> nat * nat -> nat -> nat -> byte)
        (decode : UploadedFile -> res Image) (nep50 : bool)
        (model_file later_model_file : string -> res Interpreter)
        (w : World) (up : option UploadedFile) (btn : bool)
        (inputs : list (option UploadedFile * bool)) :
  load_fails model_file w ->
  Forall (fun w' => In load_error (page w') /\ calls w' = [])
         (session luma_other resample decode later_model_file nep50
                  (rerun luma_other resample decode model_file nep50 w up btn)
                  inputs).
Proof.
  intros Hf.
  destruct (rerun_load_failed_cache luma_other resample decode model_file nep50
                                    w up btn Hf) as (rendered & Hc).
  apply session_load_failed. unfold load_fails. rewrite Hc. reflexivity.
Qed.

(** X1 on a 300x300 RGB image. *)
Lemma colour_branch_tensor_witness :
  mode rgb300 <> "L"
  /\ shape_of (preprocess_image first_band NEAREST rgb300) = [1; 224; 224; 3]
  /\ dtype_of (preprocess_image first_band NEAREST rgb300) = float64
  /\ size_of (preprocess_image first_band NEAREST rgb300) = 224 * 224 * 3.
Proof.
  split; [discriminate | ].
  apply (colour_branch_tensor first_band NEAREST rgb300). discriminate.
Defined.

(** X3 on the greyscale conversion of a 300x300 image. *)
Lemma grayscale_values_repeated_witness :
  mode (convert_L first_band rgb300) = "L"
  /\ elements (preprocess_image first_band NEAREST
                                (as_rgb (convert_L first_band rgb300)))
     = flat_map (fun v => [v; v; v])
                (elements (preprocess_image first_band NEAREST
                                            (convert_L first_band rgb300))).
Proof.
  split; [reflexivity | ].
  apply (grayscale_values_repeated first_band NEAREST (convert_L first_band rgb300)).
  reflexivity.
Defined.

(** X4 on a 300x300 RGB image. *)
Lemma conversion_is_idempotent_witness :
  mode rgb300 <> "L"
  /\ preprocess_image first_band NEAREST (gray_rgb first_band rgb300)
     = preprocess_image first_band NEAREST rgb300.
Proof.
  split; [discriminate | ].
  apply (conversion_is_idempotent first_band NEAREST rgb300). discriminate.
Defined.

(** X5 on a 300x300 RGB image. *)
Lemma channels_are_equal_witness :
  mode rgb300 <> "L"
  /\ exists values,
      List.length values = 224 * 224
      /\ elements (preprocess_image first_band NEAREST rgb300)
         = flat_map (fun v => [v; v; v]) values.
Proof.
  split; [discriminate | ].
  apply (channels_are_equal first_band NEAREST rgb300). discriminate.
Defined.

Lemma list_nat_eqb_true (a b : list nat) : list_nat_eqb a b = true -> a = b.
Proof.
  revert b. induction a as [ | x a IH]; intros [ | y b] H; cbn in H;
    try discriminate; [reflexivity | ].
  apply andb_prop in H as [Hx Hab]. apply Nat.eqb_eq in Hx.
  rewrite Hx, (IH b Hab). reflexivity.
Qed.

Lemma classifier_is_strict (p : spec_float) (a : ndarray) :
  shape_of a <> [1; 224; 224; 3] -> bind_error (classifier p) 0%Z a <> None.
Proof.
  intros Hshape. unfold classifier. cbn [bind_error].
  destruct (dtype_of a); try discriminate.
  destruct (list_nat_eqb (shape_of a) [1; 224; 224; 3]) eqn:Heq; [ | discriminate].
  apply list_nat_eqb_true in Heq. contradiction.
Qed.

(** X6 with the button pressed. *)
Lemma no_upload_shows_placeholder_witness :
  ready (warm (classifier p02)) 0 (classifier p02)
  /\ page (rerun first_band NEAREST (decodes_to rgb300)
                 (model_present (classifier p02)) true
                 (warm (classifier p02)) None true)
     = static_elements ++ [st_columns [1; 2; 1]; st_markdown placeholder]
  /\ calls (rerun first_band NEAREST (decodes_to rgb300)
                  (model_present (classifier p02)) true
                  (warm (classifier p02)) None true) = [].
Proof.
  split; [apply warm_ready | ].
  apply (no_upload_shows_placeholder first_band NEAREST (decodes_to rgb300)
           (model_present (classifier p02)) true
           (warm (classifier p02)) 0 (classifier p02) true).
  apply warm_ready.
Defined.

(** X7 for a decoder that rejects the upload, the button pressed. *)
Lemma undecodable_upload_reported_witness :
  ready (warm (classifier p02)) 0 (classifier p02)
  /\ undecodable (upload 2048) = inl (Exception "cannot identify image file")
  /\ page (rerun first_band NEAREST undecodable
                 (model_present (classifier p02)) true
                 (warm (classifier p02)) (Some (upload 2048)) true)
     = static_elements ++
       [st_error "Error processing image: cannot identify image file";
        st_write "Please ensure you've uploaded a valid image file."]
  /\ calls (rerun first_band NEAREST undecodable
                  (model_present (classifier p02)) true
                  (warm (classifier p02)) (Some (upload 2048)) true)
     = ["Image.open"].
Proof.
  split; [apply warm_ready | ]. split; [reflexivity | ].
  apply (undecodable_upload_reported first_band NEAREST undecodable
           (model_present (classifier p02)) true
           (warm (classifier p02)) 0 (classifier p02) (upload 2048) true
           (Exception "cannot identify image file")).
  - apply warm_ready.
  - cbn; lia.
  - reflexivity.
Defined.

(** X8 on a 300x300 RGB image. *)
Lemma nothing_analysed_until_button_witness :
  ready (warm (classifier p02)) 0 (classifier p02)
  /\ calls (rerun first_band NEAREST (decodes_to rgb300)
                  (model_present (classifier p02)) true
                  (warm (classifier p02)) (Some (upload 2048)) false)
     = ["Image.open"].
Proof.
  split; [apply warm_ready | ].
  apply (nothing_analysed_until_button first_band NEAREST (decodes_to rgb300)
           (model_present (classifier p02)) true
           (warm (classifier p02)) 0 (classifier p02) (upload 2048) rgb300).
  - apply warm_ready.
  - cbn; lia.
  - reflexivity.
Defined.

(** X9 for the probability 0.75: a green card. *)
Lemma card_colour_follows_label_witness :
  IEEE.valid binary32 p075 = true
  /\ IEEE.to_Q p075 = Some (12582912 # 16777216)%Q
  /\ (1 # 2 < 12582912 # 16777216)%Q
  /\ exists text,
      page (rerun first_band NEAREST (decodes_to rgb300)
                  (model_present (classifier p075)) true
                  (warm (classifier p075)) (Some (upload 2048)) true)
      = static_elements ++ analysed rgb300 ++
        [st_columns [1; 2; 1];
         st_markdown (result_card "green" "PCOS Negative" text)].
Proof.
  split; [reflexivity | ]. split; [reflexivity | ].
  assert (Habove : (1 # 2 < 12582912 # 16777216)%Q) by (unfold Qlt; cbn; lia).
  split; [exact Habove | ].
  destruct (card_colour_follows_label first_band NEAREST (decodes_to rgb300)
              (model_present (classifier p075)) true
              (warm (classifier p075)) 0 (classifier p075) (upload 2048) rgb300
              p075 (12582912 # 16777216)%Q) as (text & Hgreen & _).
  - apply warm_ready.
  - cbn; lia.
  - reflexivity.
  - apply classifier_answers; apply colour_tensor; reflexivity.
  - reflexivity.
  - reflexivity.
  - exists text. apply Hgreen, Habove.
Defined.

(** X11 after a run that ends in a prediction error. *)
Lemma interaction_keeps_model_ready_witness :
  ready (warm broken_classifier) 0 broken_classifier
  /\ exists i',
      ready (rerun first_band NEAREST (decodes_to rgb300)
                   (model_present broken_classifier) true
                   (warm broken_classifier) (Some (upload 2048)) true) 0 i'
      /\ same_model broken_classifier i'.
Proof.
  split; [apply warm_ready | ].
  destruct (interaction_keeps_model_ready first_band NEAREST (decodes_to rgb300)
              (model_present broken_classifier) true
              (warm broken_classifier) 0 broken_classifier
              (Some (upload 2048)) true (warm_ready _)) as (i' & Hr & Hs & _).
  exists i'. split; assumption.
Defined.

(** X12 over three interactions. *)
Lemma model_loaded_once_witness :
  model_present (classifier p02) "pcos_detection_model.tflite" = inr (classifier p02)
  /\ allocate_error (classifier p02) = None
  /\ Forall (loaded_once (classifier p02))
            (session first_band NEAREST (decodes_to rgb300)
                     (model_present (classifier p02)) true boot
                     [(None, false); (Some (upload 2048), true); (None, true)]).
Proof.
  split; [reflexivity | ]. split; [reflexivity | ].
  apply (model_loaded_once first_band NEAREST (decodes_to rgb300)
           (model_present (classifier p02)) true (classifier p02)); reflexivity.
Defined.

(** X13: the model file is missing at first and present afterwards. *)
Lemma failed_load_is_sticky_witness :
  load_fails model_missing boot
  /\ Forall (fun w' => In load_error (page w') /\ calls w' = [])
            (session first_band NEAREST (decodes_to rgb300)
                     (model_present (classifier p02)) true
                     (rerun first_band NEAREST (decodes_to rgb300)
                            model_missing true boot None false)
                     [(Some (upload 2048), true); (None, false)]).
Proof.
  assert (Hf : load_fails model_missing boot) by exact I.
  split; [exact Hf | ].
  apply (failed_load_is_sticky first_band NEAREST (decodes_to rgb300) true
           model_missing (model_present (classifier p02)) boot None false _ Hf).
Defined.

(** X14 on the 2x2 greyscale image. *)
Lemma grayscale_upload_gets_prediction_error_witness :
  mode gray2 = "L"
  /\ exists e,
      page (rerun first_band NEAREST (decodes_to gray2)
                  (model_present (classifier p02)) true
                  (warm (classifier p02)) (Some (upload 1024)) true)
      = static_elements ++ analysed gray2 ++
        [st_error ("Error during prediction: " ++ str e)].
Proof.
  split; [reflexivity | ].
  apply (grayscale_upload_gets_prediction_error first_band NEAREST (decodes_to gray2)
           (model_present (classifier p02)) true
           (warm (classifier p02)) 0 (classifier p02) (upload 1024) gray2
           (mkDetails 0 [1; 224; 224; 3] float32) []).
  - apply warm_ready.
  - cbn; lia.
  - reflexivity.
  - reflexivity.
  - reflexivity.
  - intros a. apply classifier_is_strict.
Defined.

(** X15 for a model that declares no input. *)
Lemma malformed_model_fails_gracefully_witness :
  nth_error (heap (warm blank_model)) 0 = Some blank_model
  /\ input_details blank_model = []
  /\ fst (predict_pcos_tflite 0 (ArrU8 [1; 1] [x00]) (warm blank_model))
     = inr (None, None).
Proof.
  split; [reflexivity | ]. split; [reflexivity | ].
  apply (malformed_model_fails_gracefully 0 (ArrU8 [1; 1] [x00])
           (warm blank_model) blank_model eq_refl).
  left. reflexivity.
Defined.
